(** * MPU-6050 I2C driver (mpu6050.py): shallow embedding and properties

    The driver is a Python class talking to an SMBus collaborator.  The
    embedding keeps the three things the driver's behaviour depends on:

    - Python values and exceptions (a flag compared with [is], a method that
      falls off its end and returns [None], an attribute that does not exist,
      a call with the wrong number of arguments);
    - the bus, as a register file per device address together with the
      chronological log of the transactions performed and the lines printed;
    - IEEE binary64 arithmetic for the scaled measurements, through the
      primitive floats of the kernel.

    The device is a register file: a read returns the byte last written to
    the register, or its initial contents.  Transactions always complete
    (a failing bus is the collaborator's business) and a write stores the
    value it is given. *)

From Stdlib Require Import ZArith List String Bool Lia PrimFloat Uint63.
Import ListNotations.
Open Scope string_scope.
Open Scope list_scope.
Open Scope Z_scope.

(** ** Python values and exceptions *)

(** The only dictionaries the driver builds map axis names to floats. *)
Inductive pyval : Type :=
| PyNone
| PyBool (b : bool)
| PyInt (z : Z)
| PyFloat (f : float)
| PyStr (s : string)
| PyDict (items : list (string * float)).

Inductive exn : Type :=
| AttributeError (name : string)
| TypeError (callee : string) (given : nat)
| ValueError (msg : string)
| ZeroDivisionError.

(** [v is True] and [v is False]: identity with the two bool singletons. *)
Definition is_True (v : pyval) : bool :=
  match v with PyBool true => true | _ => false end.

Definition is_False (v : pyval) : bool :=
  match v with PyBool false => true | _ => false end.

(** [float(z)], exact below 2^53. *)
Definition float_of_Z (z : Z) : float :=
  if z <? 0 then PrimFloat.opp (PrimFloat.of_uint63 (Uint63.of_Z (- z)))
  else PrimFloat.of_uint63 (Uint63.of_Z z).

(** [v == n] for an int [n]. *)
Definition py_eq_int (v : pyval) (n : Z) : bool :=
  match v with
  | PyInt z => z =? n
  | PyBool b => Z.b2z b =? n
  | PyFloat f => PrimFloat.eqb f (float_of_Z n)
  | _ => false
  end.

(** ** The world: the devices' registers, the bus log, standard output *)

Inductive bus_op : Type :=
| BusRead (addr reg value : Z)
| BusWrite (addr reg value : Z).

Record world : Type := mkWorld {
  regs : Z -> Z -> Z;          (* device address -> register -> byte *)
  bus_log : list bus_op;       (* oldest transaction first *)
  stdout : list string         (* oldest line first *)
}.

Inductive outcome (A : Type) : Type :=
| Returns (a : A)
| Raises (e : exn).
Arguments Returns {A} a.
Arguments Raises {A} e.

(** ** The effect monad: state of the world, with exceptions *)

Definition M (A : Type) : Type := world -> outcome A * world.

Definition ret {A} (a : A) : M A := fun w => (Returns a, w).

Definition raise {A} (e : exn) : M A := fun w => (Raises e, w).

Definition bind {A B} (m : M A) (k : A -> M B) : M B :=
  fun w =>
    match m w with
    | (Returns a, w') => k a w'
    | (Raises e, w') => (Raises e, w')
    end.

Declare Scope py_scope.
Delimit Scope py_scope with py.
Notation "x <- c1 ;; c2" := (bind c1 (fun x => c2))
  (at level 100, c1 at next level, right associativity) : py_scope.
Notation "c1 ;; c2" := (bind c1 (fun _ => c2))
  (at level 100, right associativity) : py_scope.
Open Scope py_scope.

Definition result {A} (m : M A) (w : world) : outcome A := fst (m w).

Definition after {A} (m : M A) (w : world) : world := snd (m w).

(** Dynamic typing at the places where the driver needs a number. *)
Definition as_int (v : pyval) : M Z :=
  match v with
  | PyInt z => ret z
  | PyBool b => ret (Z.b2z b)
  | _ => raise (TypeError "int" 0)
  end.

Definition as_float (v : pyval) : M float :=
  match v with
  | PyFloat f => ret f
  | PyInt z => ret (float_of_Z z)
  | PyBool b => ret (float_of_Z (Z.b2z b))
  | _ => raise (TypeError "float" 0)
  end.

(** [a << n] and [a >> n]: a negative count raises ValueError. *)
Definition py_lshift (a n : Z) : M Z :=
  if n <? 0 then raise (ValueError "negative shift count")
  else ret (Z.shiftl a n).

Definition py_rshift (a n : Z) : M Z :=
  if n <? 0 then raise (ValueError "negative shift count")
  else ret (Z.shiftr a n).

(** [x / m] with an int [x] and a float [m]. *)
Definition py_truediv (x : Z) (m : float) : M float :=
  if PrimFloat.eqb m 0%float then raise ZeroDivisionError
  else ret (PrimFloat.div (float_of_Z x) m).

(** [~v] *)
Definition py_invert (v : pyval) : M pyval :=
  z <- as_int v ;; ret (PyInt (Z.lnot z)).

Definition print (line : string) : M unit :=
  fun w => (Returns tt,
            {| regs := regs w; bus_log := bus_log w;
               stdout := stdout w ++ [line] |}).

(** ** smbus.SMBus: byte transactions against the register file *)

Module smbus.

Definition poke (f : Z -> Z -> Z) (addr reg value : Z) : Z -> Z -> Z :=
  fun a r => if (a =? addr) && (r =? reg) then value else f a r.

Definition read_byte_data (addr reg : Z) : M Z :=
  fun w => (Returns (regs w addr reg),
            {| regs := regs w;
               bus_log := bus_log w ++ [BusRead addr reg (regs w addr reg)];
               stdout := stdout w |}).

Definition write_byte_data (addr reg value : Z) : M unit :=
  fun w => (Returns tt,
            {| regs := poke (regs w) addr reg value;
               bus_log := bus_log w ++ [BusWrite addr reg value];
               stdout := stdout w |}).

End smbus.

(** ** class mpu6050 *)

Module mpu6050.

(** The instance: [self.address]; [self.bus] is the world. *)
Record device : Type := mkDevice { address : Z }.

(** *** Class attributes *)

(* The decimal literals denote the nearest binary64, as in Python. *)
Set Warnings "-inexact-float".

Definition GRAVITIY_MS2 : float := 9.80665%float.

Definition ACCEL_SCALE_MODIFIER_2G : float := 16384.0%float.
Definition ACCEL_SCALE_MODIFIER_4G : float := 8192.0%float.
Definition ACCEL_SCALE_MODIFIER_8G : float := 4096.0%float.
Definition ACCEL_SCALE_MODIFIER_16G : float := 2048.0%float.

Definition GYRO_SCALE_MODIFIER_250DEG : float := 131.0%float.
Definition GYRO_SCALE_MODIFIER_500DEG : float := 65.5%float.
Definition GYRO_SCALE_MODIFIER_1000DEG : float := 32.8%float.
Definition GYRO_SCALE_MODIFIER_2000DEG : float := 16.4%float.

Set Warnings "inexact-float".

Definition ACCEL_RANGE_2G : Z := 0x00.
Definition ACCEL_RANGE_4G : Z := 0x08.
Definition ACCEL_RANGE_8G : Z := 0x10.
Definition ACCEL_RANGE_16G : Z := 0x18.

Definition GYRO_RANGE_250DEG : Z := 0x00.
Definition GYRO_RANGE_500DEG : Z := 0x08.
Definition GYRO_RANGE_1000DEG : Z := 0x10.
Definition GYRO_RANGE_2000DEG : Z := 0x18.

Definition PWR_MGMT_1 : Z := 0x6B.
Definition PWR_MGMT_2 : Z := 0x6C.

Definition PWR1_DEVICE_RESET_BIT : Z := 7.
Definition PWR1_DEVICE_SLEEP_BIT : Z := 6.
Definition PWR1_CYCLE_BIT : Z := 5.
Definition PWR1_TEMP_DIS_BIT : Z := 3.
Definition PWR1_CLKSEL_BIT : Z := 2.
Definition PWR1_CLKSEL_LENGTH : Z := 3.

Definition PWR2_LP_WAKE_CTRL_BIT : Z := 7.
Definition PWR2_LP_WAKE_CTRL_LENGTH : Z := 2.
Definition PWR2_STBY_XA_BIT : Z := 5.
Definition PWR2_STBY_YA_BIT : Z := 4.
Definition PWR2_STBY_XG_BIT : Z := 3.
Definition PWR2_STBY_YG_BIT : Z := 1.
Definition PWR2_STBY_ZG_BIT : Z := 0.

Definition ACCEL_XOUT0 : Z := 0x3B.
Definition ACCEL_YOUT0 : Z := 0x3D.
Definition ACCEL_ZOUT0 : Z := 0x3F.

Definition TEMP_OUT0 : Z := 0x41.

Definition GYRO_XOUT0 : Z := 0x43.
Definition GYRO_YOUT0 : Z := 0x45.
Definition GYRO_ZOUT0 : Z := 0x47.

Definition ACCEL_CONFIG : Z := 0x1C.
Definition GYRO_CONFIG : Z := 0x1B.

(** The class body as a namespace: what [self.NAME] finds for a constant.
    A name that the class body does not bind raises AttributeError. *)
Definition class_dict : list (string * pyval) :=
  [ ("GRAVITIY_MS2", PyFloat GRAVITIY_MS2);
    ("ACCEL_SCALE_MODIFIER_2G", PyFloat ACCEL_SCALE_MODIFIER_2G);
    ("ACCEL_SCALE_MODIFIER_4G", PyFloat ACCEL_SCALE_MODIFIER_4G);
    ("ACCEL_SCALE_MODIFIER_8G", PyFloat ACCEL_SCALE_MODIFIER_8G);
    ("ACCEL_SCALE_MODIFIER_16G", PyFloat ACCEL_SCALE_MODIFIER_16G);
    ("GYRO_SCALE_MODIFIER_250DEG", PyFloat GYRO_SCALE_MODIFIER_250DEG);
    ("GYRO_SCALE_MODIFIER_500DEG", PyFloat GYRO_SCALE_MODIFIER_500DEG);
    ("GYRO_SCALE_MODIFIER_1000DEG", PyFloat GYRO_SCALE_MODIFIER_1000DEG);
    ("GYRO_SCALE_MODIFIER_2000DEG", PyFloat GYRO_SCALE_MODIFIER_2000DEG);
    ("ACCEL_RANGE_2G", PyInt ACCEL_RANGE_2G);
    ("ACCEL_RANGE_4G", PyInt ACCEL_RANGE_4G);
    ("ACCEL_RANGE_8G", PyInt ACCEL_RANGE_8G);
    ("ACCEL_RANGE_16G", PyInt ACCEL_RANGE_16G);
    ("GYRO_RANGE_250DEG", PyInt GYRO_RANGE_250DEG);
    ("GYRO_RANGE_500DEG", PyInt GYRO_RANGE_500DEG);
    ("GYRO_RANGE_1000DEG", PyInt GYRO_RANGE_1000DEG);
    ("GYRO_RANGE_2000DEG", PyInt GYRO_RANGE_2000DEG);
    ("PWR_MGMT_1", PyInt PWR_MGMT_1);
    ("PWR_MGMT_2", PyInt PWR_MGMT_2);
    ("PWR1_DEVICE_RESET_BIT", PyInt PWR1_DEVICE_RESET_BIT);
    ("PWR1_DEVICE_SLEEP_BIT", PyInt PWR1_DEVICE_SLEEP_BIT);
    ("PWR1_CYCLE_BIT", PyInt PWR1_CYCLE_BIT);
    ("PWR1_TEMP_DIS_BIT", PyInt PWR1_TEMP_DIS_BIT);
    ("PWR1_CLKSEL_BIT", PyInt PWR1_CLKSEL_BIT);
    ("PWR1_CLKSEL_LENGTH", PyInt PWR1_CLKSEL_LENGTH);
    ("PWR2_LP_WAKE_CTRL_BIT", PyInt PWR2_LP_WAKE_CTRL_BIT);
    ("PWR2_LP_WAKE_CTRL_LENGTH", PyInt PWR2_LP_WAKE_CTRL_LENGTH);
    ("PWR2_STBY_XA_BIT", PyInt PWR2_STBY_XA_BIT);
    ("PWR2_STBY_YA_BIT", PyInt PWR2_STBY_YA_BIT);
    ("PWR2_STBY_XG_BIT", PyInt PWR2_STBY_XG_BIT);
    ("PWR2_STBY_YG_BIT", PyInt PWR2_STBY_YG_BIT);
    ("PWR2_STBY_ZG_BIT", PyInt PWR2_STBY_ZG_BIT);
    ("ACCEL_XOUT0", PyInt ACCEL_XOUT0);
    ("ACCEL_YOUT0", PyInt ACCEL_YOUT0);
    ("ACCEL_ZOUT0", PyInt ACCEL_ZOUT0);
    ("TEMP_OUT0", PyInt TEMP_OUT0);
    ("GYRO_XOUT0", PyInt GYRO_XOUT0);
    ("GYRO_YOUT0", PyInt GYRO_YOUT0);
    ("GYRO_ZOUT0", PyInt GYRO_ZOUT0);
    ("ACCEL_CONFIG", PyInt ACCEL_CONFIG);
    ("GYRO_CONFIG", PyInt GYRO_CONFIG) ].

Fixpoint lookup (name : string) (d : list (string * pyval)) : option pyval :=
  match d with
  | [] => None
  | (k, v) :: d' => if String.eqb k name then Some v else lookup name d'
  end.

(** [self.NAME] *)
Definition getattr (name : string) : M pyval :=
  match lookup name class_dict with
  | Some v => ret v
  | None => raise (AttributeError name)
  end.

Definition int_attr (name : string) : M Z := v <- getattr name ;; as_int v.

Definition float_attr (name : string) : M float :=
  v <- getattr name ;; as_float v.

(** *** I2C communication methods *)

Definition init (address : Z) : M device :=
  let self := mkDevice address in
  r <- int_attr "PWR_MGMT_1" ;;
  smbus.write_byte_data address r 0x00 ;;
  ret self.

Definition read_i2c_byte (self : device) (register : Z) : M Z :=
  smbus.read_byte_data (address self) register.

Definition read_i2c_bit (self : device) (register bitNum : Z) : M Z :=
  data <- read_i2c_byte self register ;;
  b <- py_lshift 1 bitNum ;;
  ret (Z.land data b).

(** Falls off the end, hence [None], when the byte read is zero. *)
Definition read_i2c_bits (self : device) (register bitStart len : Z)
  : M pyval :=
  data <- read_i2c_byte self register ;;
  if negb (data =? 0) then
    m <- py_lshift 1 len ;;
    mask <- py_lshift (m - 1) (bitStart - len + 1) ;;
    let data := Z.land data mask in
    data <- py_rshift data (bitStart - len + 1) ;;
    ret (PyInt data)
  else ret PyNone.

Definition read_i2c_word (self : device) (register : Z) : M Z :=
  high <- smbus.read_byte_data (address self) register ;;
  low <- smbus.read_byte_data (address self) (register + 1) ;;
  let value := Z.shiftl high 8 + low in
  if value >=? 0x8000 then ret (- ((65535 - value) + 1))
  else ret value.

(** The test is on the byte read; [value] does not occur in the body. *)
Definition write_i2c_bit (self : device) (register bitNum : Z)
  (value : pyval) : M unit :=
  data <- read_i2c_byte self register ;;
  data <- (if negb (data =? 0)
           then b <- py_lshift 1 bitNum ;; ret (Z.lor data b)
           else b <- py_lshift 1 bitNum ;; ret (Z.land data (Z.lnot b))) ;;
  smbus.write_byte_data (address self) register data.

(** The read is [read_i2c_byte(self.address)]; nothing is written when
    [data] is zero. *)
Definition write_i2c_bits (self : device) (register bitStart len data : Z)
  : M unit :=
  b <- read_i2c_byte self (address self) ;;
  if negb (data =? 0) then
    m <- py_lshift 1 len ;;
    mask <- py_lshift (m - 1) (bitStart - len + 1) ;;
    data <- py_lshift data (bitStart - len + 1) ;;
    let data := Z.land data mask in
    let b := Z.land b (Z.lnot mask) in
    let b := Z.lor b data in
    smbus.write_byte_data (address self) register b
  else ret tt.

(** Calling a bound method with a list of positional arguments: the
    number of arguments must be the number of parameters after [self]. *)
Definition call_read_i2c_bits (self : device) (args : list pyval)
  : M pyval :=
  match args with
  | [register; bitStart; len] =>
      r <- as_int register ;; s <- as_int bitStart ;; l <- as_int len ;;
      read_i2c_bits self r s l
  | _ => raise (TypeError "read_i2c_bits" (S (List.length args)))
  end.

Definition call_write_i2c_bit (self : device) (args : list pyval)
  : M unit :=
  match args with
  | [register; bitNum; value] =>
      r <- as_int register ;; n <- as_int bitNum ;;
      write_i2c_bit self r n value
  | _ => raise (TypeError "write_i2c_bit" (S (List.length args)))
  end.

(** *** MPU-6050 methods *)

Definition set_accel_range (self : device) (accel_range : Z) : M unit :=
  r <- int_attr "ACCEL_CONFIG" ;;
  smbus.write_byte_data (address self) r 0x00 ;;
  r <- int_attr "ACCEL_CONFIG" ;;
  smbus.write_byte_data (address self) r accel_range.

Definition read_accel_range (self : device) (raw : pyval) : M pyval :=
  r <- int_attr "ACCEL_CONFIG" ;;
  raw_data <- smbus.read_byte_data (address self) r ;;
  if is_True raw then ret (PyInt raw_data)
  else if is_False raw then
    c <- int_attr "ACCEL_RANGE_2G" ;;
    if raw_data =? c then ret (PyInt 2) else
    c <- int_attr "ACCEL_RANGE_4G" ;;
    if raw_data =? c then ret (PyInt 4) else
    c <- int_attr "ACCEL_RANGE_8G" ;;
    if raw_data =? c then ret (PyInt 8) else
    c <- int_attr "ACCEL_RANGE_16G" ;;
    if raw_data =? c then ret (PyInt 16) else
    ret (PyInt (-1))
  else ret PyNone.

Definition get_accel_data (self : device) (g : pyval) : M pyval :=
  r <- int_attr "ACCEL_XOUT0" ;; x <- read_i2c_word self r ;;
  r <- int_attr "ACCEL_YOUT0" ;; y <- read_i2c_word self r ;;
  r <- int_attr "ACCEL_ZOUT0" ;; z <- read_i2c_word self r ;;
  accel_range <- read_accel_range self (PyBool true) ;;
  accel_scale_modifier <-
    (c <- int_attr "ACCEL_RANGE_2G" ;;
     if py_eq_int accel_range c
     then float_attr "ACCEL_SCALE_MODIFIER_2G" else
     c <- int_attr "ACCEL_RANGE_4G" ;;
     if py_eq_int accel_range c
     then float_attr "ACCEL_SCALE_MODIFIER_4G" else
     c <- int_attr "ACCEL_RANGE_8G" ;;
     if py_eq_int accel_range c
     then float_attr "ACCEL_SCALE_MODIFIER_8G" else
     c <- int_attr "ACCEL_RANGE_16G" ;;
     if py_eq_int accel_range c
     then float_attr "ACCEL_SCALE_MODIFIER_16G" else
     print "Unkown range - accel_scale_modifier set to self.ACCEL_SCALE_MODIFIER_2G" ;;
     float_attr "ACCEL_SCALE_MODIFIER_2G") ;;
  x <- py_truediv x accel_scale_modifier ;;
  y <- py_truediv y accel_scale_modifier ;;
  z <- py_truediv z accel_scale_modifier ;;
  if is_True g then ret (PyDict [("x", x); ("y", y); ("z", z)])
  else if is_False g then
    k <- float_attr "GRAVITIY_MS2" ;; let x := PrimFloat.mul x k in
    k <- float_attr "GRAVITIY_MS2" ;; let y := PrimFloat.mul y k in
    k <- float_attr "GRAVITIY_MS2" ;; let z := PrimFloat.mul z k in
    ret (PyDict [("x", x); ("y", y); ("z", z)])
  else ret PyNone.

Definition set_gyro_range (self : device) (gyro_range : Z) : M unit :=
  r <- int_attr "GYRO_CONFIG" ;;
  smbus.write_byte_data (address self) r 0x00 ;;
  r <- int_attr "GYRO_CONFIG" ;;
  smbus.write_byte_data (address self) r gyro_range.

Definition read_gyro_range (self : device) (raw : pyval) : M pyval :=
  r <- int_attr "GYRO_CONFIG" ;;
  raw_data <- smbus.read_byte_data (address self) r ;;
  if is_True raw then ret (PyInt raw_data)
  else if is_False raw then
    c <- int_attr "GYRO_RANGE_250DEG" ;;
    if raw_data =? c then ret (PyInt 250) else
    c <- int_attr "GYRO_RANGE_500DEG" ;;
    if raw_data =? c then ret (PyInt 500) else
    c <- int_attr "GYRO_RANGE_1000DEG" ;;
    if raw_data =? c then ret (PyInt 1000) else
    c <- int_attr "GYRO_RANGE_2000DEG" ;;
    if raw_data =? c then ret (PyInt 2000) else
    ret (PyInt (-1))
  else ret PyNone.

Definition get_gyro_data (self : device) : M pyval :=
  r <- int_attr "GYRO_XOUT0" ;; x <- read_i2c_word self r ;;
  r <- int_attr "GYRO_YOUT0" ;; y <- read_i2c_word self r ;;
  r <- int_attr "GYRO_ZOUT0" ;; z <- read_i2c_word self r ;;
  gyro_range <- read_gyro_range self (PyBool true) ;;
  gyro_scale_modifier <-
    (c <- int_attr "GYRO_RANGE_250DEG" ;;
     if py_eq_int gyro_range c
     then float_attr "GYRO_SCALE_MODIFIER_250DEG" else
     c <- int_attr "GYRO_RANGE_500DEG" ;;
     if py_eq_int gyro_range c
     then float_attr "GYRO_SCALE_MODIFIER_500DEG" else
     c <- int_attr "GYRO_RANGE_1000DEG" ;;
     if py_eq_int gyro_range c
     then float_attr "GYRO_SCALE_MODIFIER_1000DEG" else
     c <- int_attr "GYRO_RANGE_2000DEG" ;;
     if py_eq_int gyro_range c
     then float_attr "GYRO_SCALE_MODIFIER_2000DEG" else
     print "Unkown range - gyro_scale_modifier set to self.GYRO_SCALE_MODIFIER_250DEG" ;;
     float_attr "GYRO_SCALE_MODIFIER_250DEG") ;;
  x <- py_truediv x gyro_scale_modifier ;;
  y <- py_truediv y gyro_scale_modifier ;;
  z <- py_truediv z gyro_scale_modifier ;;
  ret (PyDict [("x", x); ("y", y); ("z", z)]).

(** *** Temperature, raw axes and the aggregate read *)

(* The decimal literal denotes the nearest binary64, as in Python. *)
Set Warnings "-inexact-float".

Definition get_temp (self : device) : M float :=
  r <- int_attr "TEMP_OUT0" ;;
  raw_temp <- read_i2c_word self r ;;
  q <- py_truediv raw_temp 340.0%float ;;
  let actual_temp := PrimFloat.add q 36.53%float in
  ret actual_temp.

Set Warnings "inexact-float".

Definition get_accel_x (self : device) : M Z :=
  r <- int_attr "ACCEL_XOUT0" ;; read_i2c_word self r.

Definition get_accel_y (self : device) : M Z :=
  r <- int_attr "ACCEL_YOUT0" ;; read_i2c_word self r.

Definition get_accel_z (self : device) : M Z :=
  r <- int_attr "ACCEL_ZOUT0" ;; read_i2c_word self r.

Definition get_gyro_x (self : device) : M Z :=
  r <- int_attr "GYRO_XOUT0" ;; read_i2c_word self r.

Definition get_gyro_y (self : device) : M Z :=
  r <- int_attr "GYRO_YOUT0" ;; read_i2c_word self r.

Definition get_gyro_z (self : device) : M Z :=
  r <- int_attr "GYRO_ZOUT0" ;; read_i2c_word self r.

(** The list [[accel, gyro, temp]]; both defaulted flags are [False]. *)
Definition get_all_data (self : device) : M (list pyval) :=
  temp <- get_temp self ;;
  accel <- get_accel_data self (PyBool false) ;;
  gyro <- get_gyro_data self ;;
  ret [accel; gyro; PyFloat temp].

(** *** PWR_MGMT_1 register *)

Definition reset (self : device) : M unit :=
  r <- int_attr "PWR_MGMT_1" ;;
  smbus.write_byte_data (address self) r 0x01.

(** The arguments of a call are evaluated left to right, before the call. *)
Definition get_sleep_enabled (self : device) : M Z :=
  r <- int_attr "PWR_MGMT_1" ;;
  b <- int_attr "PWR_1_SLEEP_BIT" ;;
  read_i2c_bit self r b.

Definition set_sleep_enabled (self : device) (enabled : pyval) : M unit :=
  let a := PyInt (address self) in
  r <- getattr "PWR_MGMT_1" ;;
  b <- getattr "PWR1_SLEEP_BIT" ;;
  call_write_i2c_bit self [a; r; b; enabled].

Definition get_wake_cycle_enabled (self : device) : M Z :=
  r <- int_attr "PWR_MGMT_1" ;;
  b <- int_attr "PWR_1_CYCLE_BIT" ;;
  read_i2c_bit self r b.

Definition set_wake_cycle_enabled (self : device) (enabled : pyval)
  : M unit :=
  let a := PyInt (address self) in
  r <- getattr "PWR_MGMT_1" ;;
  b <- getattr "PWR_1_CYCLE_BIT" ;;
  call_write_i2c_bit self [a; r; b; enabled].

Definition get_temp_sensor_enabled (self : device) : M bool :=
  r <- int_attr "PWR_MGMT_1" ;;
  b <- int_attr "PWR1_TEMP_DIS_BIT" ;;
  v <- read_i2c_bit self r b ;;
  ret (v =? 0).

Definition set_temp_sensor_enabled (self : device) (enabled : pyval)
  : M unit :=
  let a := PyInt (address self) in
  r <- getattr "PWR_MGMT_1" ;;
  b <- getattr "PWR_1_TEMP_DIS_BIT" ;;
  v <- py_invert enabled ;;
  call_write_i2c_bit self [a; r; b; v].

Definition get_clock_source (self : device) : M pyval :=
  let a := PyInt (address self) in
  r <- getattr "PWR_MGMT_1" ;;
  b <- getattr "PWR1_CLKSEL_BIT" ;;
  l <- getattr "PWR1_CLKSEL_LENGTH" ;;
  call_read_i2c_bits self [a; r; b; l].

End mpu6050.

Import mpu6050.

(** ** Vocabulary of the statements *)

(** The world after one more bus read. *)
Definition logged_read (w : world) (addr reg : Z) : world :=
  {| regs := regs w;
     bus_log := bus_log w ++ [BusRead addr reg (regs w addr reg)];
     stdout := stdout w |}.

(** The signed 16-bit word the device holds at [reg], [reg + 1]. *)
Definition word_at (w : world) (addr reg : Z) : Z :=
  let value := Z.shiftl (regs w addr reg) 8 + regs w addr (reg + 1) in
  if value >=? 0x8000 then value - 65536 else value.

(** The world after one more bus write. *)
Definition logged_write (w : world) (addr reg value : Z) : world :=
  {| regs := smbus.poke (regs w) addr reg value;
     bus_log := bus_log w ++ [BusWrite addr reg value];
     stdout := stdout w |}.

(** The world after one more printed line. *)
Definition printed (w : world) (line : string) : world :=
  {| regs := regs w; bus_log := bus_log w; stdout := stdout w ++ [line] |}.

(** A quiet bus in front of a device whose registers all read zero, and
    the same with chosen register contents. *)
Definition blank : Z -> Z -> Z := fun _ _ => 0.

Definition power_on (f : Z -> Z -> Z) : world :=
  {| regs := f; bus_log := []; stdout := [] |}.

(** The sensor at its usual address 0x68. *)
Definition sensor : device := mkDevice 0x68.

(** The field of [len] bits whose most significant bit is [bitStart],
    right-justified, as the register map defines it. *)
Definition field (byte bitStart len : Z) : Z :=
  Z.shiftr (Z.land byte (Z.shiftl (Z.shiftl 1 len - 1) (bitStart - len + 1)))
           (bitStart - len + 1).

(** The four pre-defined range bytes of each sensor. *)
Definition predefined_accel_range (raw : Z) : Prop :=
  raw = ACCEL_RANGE_2G \/ raw = ACCEL_RANGE_4G \/
  raw = ACCEL_RANGE_8G \/ raw = ACCEL_RANGE_16G.

Definition predefined_gyro_range (raw : Z) : Prop :=
  raw = GYRO_RANGE_250DEG \/ raw = GYRO_RANGE_500DEG \/
  raw = GYRO_RANGE_1000DEG \/ raw = GYRO_RANGE_2000DEG.

Definition accel_known (raw : Z) : bool :=
  (raw =? ACCEL_RANGE_2G) || (raw =? ACCEL_RANGE_4G) ||
  (raw =? ACCEL_RANGE_8G) || (raw =? ACCEL_RANGE_16G).

Definition gyro_known (raw : Z) : bool :=
  (raw =? GYRO_RANGE_250DEG) || (raw =? GYRO_RANGE_500DEG) ||
  (raw =? GYRO_RANGE_1000DEG) || (raw =? GYRO_RANGE_2000DEG).

(** The documented full-scale range, in g, of each accelerometer
    configuration byte, and -1 for any other byte. *)
Definition documented_accel_range (raw : Z) : Z :=
  if raw =? ACCEL_RANGE_2G then 2
  else if raw =? ACCEL_RANGE_4G then 4
  else if raw =? ACCEL_RANGE_8G then 8
  else if raw =? ACCEL_RANGE_16G then 16
  else -1.

Definition documented_gyro_range (raw : Z) : Z :=
  if raw =? GYRO_RANGE_250DEG then 250
  else if raw =? GYRO_RANGE_500DEG then 500
  else if raw =? GYRO_RANGE_1000DEG then 1000
  else if raw =? GYRO_RANGE_2000DEG then 2000
  else -1.

(** The divisor that goes with a configuration byte; the narrowest
    range stands in for an unknown byte. *)
Definition accel_modifier (raw : Z) : float :=
  if raw =? ACCEL_RANGE_2G then ACCEL_SCALE_MODIFIER_2G
  else if raw =? ACCEL_RANGE_4G then ACCEL_SCALE_MODIFIER_4G
  else if raw =? ACCEL_RANGE_8G then ACCEL_SCALE_MODIFIER_8G
  else if raw =? ACCEL_RANGE_16G then ACCEL_SCALE_MODIFIER_16G
  else ACCEL_SCALE_MODIFIER_2G.

Definition gyro_modifier (raw : Z) : float :=
  if raw =? GYRO_RANGE_250DEG then GYRO_SCALE_MODIFIER_250DEG
  else if raw =? GYRO_RANGE_500DEG then GYRO_SCALE_MODIFIER_500DEG
  else if raw =? GYRO_RANGE_1000DEG then GYRO_SCALE_MODIFIER_1000DEG
  else if raw =? GYRO_RANGE_2000DEG then GYRO_SCALE_MODIFIER_2000DEG
  else GYRO_SCALE_MODIFIER_250DEG.

Definition accel_diagnostic : string :=
  "Unkown range - accel_scale_modifier set to self.ACCEL_SCALE_MODIFIER_2G".

Definition gyro_diagnostic : string :=
  "Unkown range - gyro_scale_modifier set to self.GYRO_SCALE_MODIFIER_250DEG".

(** The seven reads of a sample: the three axis words, high byte first,
    then the configuration byte. *)
Definition sample_reads (w : world) (a xout yout zout config : Z)
  : list bus_op :=
  [ BusRead a xout (regs w a xout);
    BusRead a (xout + 1) (regs w a (xout + 1));
    BusRead a yout (regs w a yout);
    BusRead a (yout + 1) (regs w a (yout + 1));
    BusRead a zout (regs w a zout);
    BusRead a (zout + 1) (regs w a (zout + 1));
    BusRead a config (regs w a config) ].

Definition sampled (w : world) (a xout yout zout config : Z) : world :=
  {| regs := regs w;
     bus_log := bus_log w ++ sample_reads w a xout yout zout config;
     stdout := stdout w |}.

(** The two reads of one word, high byte first. *)
Definition word_reads (w : world) (a reg : Z) : list bus_op :=
  [ BusRead a reg (regs w a reg);
    BusRead a (reg + 1) (regs w a (reg + 1)) ].

(** The mask of a field and the byte [write_i2c_bits] composes from the
    byte read [b] and the value [data]. *)
Definition field_mask (bitStart len : Z) : Z :=
  Z.shiftl (Z.shiftl 1 len - 1) (bitStart - len + 1).

Definition deposit (b bitStart len data : Z) : Z :=
  Z.lor (Z.land b (Z.lnot (field_mask bitStart len)))
        (Z.land (Z.shiftl data (bitStart - len + 1))
                (field_mask bitStart len)).

(** All registers of the device at [a] hold bytes. *)
Definition byte_valued (w : world) (a : Z) : Prop :=
  forall r : Z, 0 <= regs w a r < 256.

Definition is_read (op : bus_op) : bool :=
  match op with BusRead _ _ _ => true | BusWrite _ _ _ => false end.

(** A computation that leaves every register as it was and adds only
    reads to the bus log. *)
Definition reads_only {A} (m : M A) : Prop :=
  forall w : world,
    regs (after m w) = regs w /\
    exists l : list bus_op,
      bus_log (after m w) = bus_log w ++ l /\ forallb is_read l = true.

(** * Properties *)

(** ** Running the monad *)

Lemma bind_returns {A B} (m : M A) (k : A -> M B) w a w' :
  m w = (Returns a, w') -> bind m k w = k a w'.
Proof. intros H. unfold bind. rewrite H. reflexivity. Qed.

Lemma bind_raises {A B} (m : M A) (k : A -> M B) w e w' :
  m w = (Raises e, w') -> bind m k w = (Raises e, w').
Proof. intros H. unfold bind. rewrite H. reflexivity. Qed.

Lemma py_lshift_nonneg a n w :
  0 <= n -> py_lshift a n w = (Returns (Z.shiftl a n), w).
Proof.
  intros Hn. unfold py_lshift.
  destruct (Z.ltb_spec n 0); [lia | reflexivity].
Qed.

Lemma py_rshift_nonneg a n w :
  0 <= n -> py_rshift a n w = (Returns (Z.shiftr a n), w).
Proof.
  intros Hn. unfold py_rshift.
  destruct (Z.ltb_spec n 0); [lia | reflexivity].
Qed.

Lemma read_i2c_word_run self register w :
  read_i2c_word self register w =
  (Returns (word_at w (address self) register),
   logged_read (logged_read w (address self) register)
     (address self) (register + 1)).
Proof.
  unfold read_i2c_word, word_at, logged_read, bind, smbus.read_byte_data, ret.
  cbn [regs bus_log stdout].
  set (value := Z.shiftl _ 8 + _).
  destruct (value >=? 0x8000); [ | reflexivity].
  replace (- (65535 - value + 1)) with (value - 65536) by lia.
  reflexivity.
Qed.

Lemma combine_bytes_range high low :
  0 <= high < 256 -> 0 <= low < 256 ->
  0 <= Z.shiftl high 8 + low < 65536.
Proof. intros Hh Hl. rewrite Z.shiftl_mul_pow2 by lia. lia. Qed.

(** Every 16-bit pattern is the combination of two bytes. *)
Lemma combine_bytes_onto v :
  0 <= v < 65536 ->
  exists high low,
    0 <= high < 256 /\ 0 <= low < 256 /\ v = Z.shiftl high 8 + low.
Proof.
  intros Hv. exists (v / 256), (v mod 256).
  rewrite Z.shiftl_mul_pow2 by lia.
  pose proof (Z.div_mod v 256 ltac:(lia)).
  pose proof (Z.mod_pos_bound v 256 ltac:(lia)).
  assert (0 <= v / 256 < 256)
    by (split; [apply Z.div_pos; lia | apply Z.div_lt_upper_bound; lia]).
  change (2 ^ 8) with 256. lia.
Qed.

(** C1. For every pair of bytes [high], [low] the bus returns,
    [read_i2c_word] returns the two's-complement reading of the 16-bit
    value [v = (high << 8) + low]: [v] itself below 0x8000, [v - 65536]
    from 0x8000 on; this is the standard signed 16-bit reinterpretation,
    and it holds at the boundaries 0x7FFF, 0x8000 and 0xFFFF. *)
Theorem read_i2c_word_twos_complement :
  forall (self : device) (register : Z) (w : world) (high low : Z),
    regs w (address self) register = high ->
    regs w (address self) (register + 1) = low ->
    0 <= high < 256 -> 0 <= low < 256 ->
    let v := Z.shiftl high 8 + low in
    let r := result (read_i2c_word self register) w in
    (v < 0x8000 -> r = Returns v) /\
    (v >= 0x8000 -> r = Returns (v - 65536)) /\
    r = Returns ((v + 32768) mod 65536 - 32768) /\
    (v = 0x7FFF -> r = Returns 32767) /\
    (v = 0x8000 -> r = Returns (-32768)) /\
    (v = 0xFFFF -> r = Returns (-1)).
Proof.
  intros self register w high low Hh Hl Bh Bl v r.
  pose proof (combine_bytes_range high low Bh Bl) as Bv. fold v in Bv.
  assert (Hr : r = Returns (if v >=? 0x8000 then v - 65536 else v)).
  { unfold r, result. rewrite read_i2c_word_run. cbn [fst].
    unfold word_at. rewrite Hh, Hl. reflexivity. }
  rewrite Hr. clearbody v. clear Hr r.
  destruct (Z.geb_spec v 0x8000) as [Hge | Hlt].
  - repeat split; intros; try lia; f_equal; try lia.
    rewrite <- (Z.mod_unique (v + 32768) 65536 1 (v - 32768)); lia.
  - repeat split; intros; try lia; f_equal; try lia.
    rewrite Z.mod_small; lia.
Qed.

Lemma read_i2c_word_twos_complement_witness :
  let w := power_on (smbus.poke blank 0x68 0x3B 0x80) in
  regs w (address sensor) 0x3B = 0x80 /\
  regs w (address sensor) (0x3B + 1) = 0x00 /\
  0 <= 0x80 < 256 /\ 0 <= 0x00 < 256 /\
  result (read_i2c_word sensor 0x3B) w = Returns (-32768).
Proof.
  intros w.
  pose proof (read_i2c_word_twos_complement sensor 0x3B w 0x80 0x00
                eq_refl eq_refl ltac:(lia) ltac:(lia)) as H.
  cbv zeta in H. destruct H as (_ & _ & _ & _ & H & _).
  split; [reflexivity | ]. split; [reflexivity | ].
  split; [lia | ]. split; [lia | ]. exact (H eq_refl).
Defined.

(** ** Bit fields *)

Lemma read_i2c_bits_nonzero self register bitStart len w :
  regs w (address self) register <> 0 ->
  0 <= len <= bitStart + 1 ->
  result (read_i2c_bits self register bitStart len) w =
  Returns (PyInt (field (regs w (address self) register) bitStart len)).
Proof.
  intros Hnz Hf. unfold result, read_i2c_bits, read_i2c_byte.
  rewrite (bind_returns _ _ w _ (logged_read w (address self) register))
    by reflexivity.
  destruct (Z.eqb_spec (regs w (address self) register) 0) as [E | _];
    [contradiction | ].
  cbn [negb].
  erewrite bind_returns by (apply py_lshift_nonneg; lia).
  erewrite bind_returns by (apply py_lshift_nonneg; lia).
  erewrite bind_returns by (apply py_rshift_nonneg; lia).
  reflexivity.
Qed.

Lemma read_i2c_bits_zero self register bitStart len w :
  regs w (address self) register = 0 ->
  result (read_i2c_bits self register bitStart len) w = Returns PyNone.
Proof.
  intros Hz. unfold result, read_i2c_bits, read_i2c_byte.
  rewrite (bind_returns _ _ w _ (logged_read w (address self) register))
    by reflexivity.
  rewrite Hz. reflexivity.
Qed.

(** C2. The claim asks [read_i2c_bits] for the right-justified field
    whatever the byte.  On the byte 0x00 the method returns [None], not
    the field value 0: here for the CLKSEL field (bitStart 2, length 3)
    of a power-management register that reads zero. *)
Theorem read_i2c_bits_zero_byte_returns_None :
  let w := power_on (smbus.poke blank 0x68 PWR_MGMT_1 0x00) in
  regs w 0x68 PWR_MGMT_1 = 0x00 /\
  field 0x00 2 3 = 0 /\
  result (read_i2c_bits sensor PWR_MGMT_1 2 3) w = Returns PyNone /\
  result (read_i2c_bits sensor PWR_MGMT_1 2 3) w <> Returns (PyInt 0).
Proof.
  cbv zeta. repeat split; try reflexivity.
  rewrite read_i2c_bits_zero by reflexivity. discriminate.
Qed.

Lemma write_i2c_bit_ignores_value self register bitNum v1 v2 :
  write_i2c_bit self register bitNum v1 = write_i2c_bit self register bitNum v2.
Proof. reflexivity. Qed.

Lemma write_i2c_bit_run self register bitNum value w :
  0 <= bitNum ->
  write_i2c_bit self register bitNum value w =
  (Returns tt,
   logged_write (logged_read w (address self) register)
     (address self) register
     (if negb (regs w (address self) register =? 0)
      then Z.lor (regs w (address self) register) (Z.shiftl 1 bitNum)
      else Z.land (regs w (address self) register)
             (Z.lnot (Z.shiftl 1 bitNum)))).
Proof.
  intros Hn. unfold write_i2c_bit, read_i2c_byte.
  rewrite (bind_returns _ _ w _ (logged_read w (address self) register))
    by reflexivity.
  destruct (negb (regs w (address self) register =? 0)).
  - erewrite bind_returns
      by (erewrite bind_returns by (apply py_lshift_nonneg; lia);
          reflexivity).
    reflexivity.
  - erewrite bind_returns
      by (erewrite bind_returns by (apply py_lshift_nonneg; lia);
          reflexivity).
    reflexivity.
Qed.

(** C3. The claim asks that bit [bitNum] of the byte written equal
    [value].  The byte written depends on the byte read only: with
    [value] false and the sleep bit (6) set in 0x41 the method writes
    0x41 back, the bit still set; with [value] true and a register
    reading 0x00 it writes 0x00, the bit still clear. *)
Theorem write_i2c_bit_does_not_follow_value :
  let w1 := power_on (smbus.poke blank 0x68 PWR_MGMT_1 0x41) in
  let w0 := power_on blank in
  bus_log (after (write_i2c_bit sensor PWR_MGMT_1 6 (PyBool false)) w1) =
    [BusRead 0x68 PWR_MGMT_1 0x41; BusWrite 0x68 PWR_MGMT_1 0x41] /\
  Z.testbit 0x41 6 = true /\
  bus_log (after (write_i2c_bit sensor PWR_MGMT_1 6 (PyBool true)) w0) =
    [BusRead 0x68 PWR_MGMT_1 0x00; BusWrite 0x68 PWR_MGMT_1 0x00] /\
  Z.testbit 0x00 6 = false.
Proof. cbv zeta. repeat split; vm_compute; reflexivity. Qed.

(** C4. The claim asks [write_i2c_bits] to read the register it writes,
    to replace the field and to keep the other bits.  The byte read is
    the one at register number [self.address]: with 0xFF in the
    power-management register and 0x00 at register 0x68, writing 5 to
    the CLKSEL field stores 0x05 where the claim gives 0xFD.  With
    [data] zero there is no write at all and the field keeps its old
    contents. *)
Theorem write_i2c_bits_reads_elsewhere_and_skips_zero :
  let w := power_on (smbus.poke blank 0x68 PWR_MGMT_1 0xFF) in
  bus_log (after (write_i2c_bits sensor PWR_MGMT_1 2 3 5) w) =
    [BusRead 0x68 0x68 0x00; BusWrite 0x68 PWR_MGMT_1 0x05] /\
  regs (after (write_i2c_bits sensor PWR_MGMT_1 2 3 5) w) 0x68 PWR_MGMT_1
    = 0x05 /\
  Z.lor (Z.land 0xFF (Z.lnot (Z.shiftl 7 0))) 5 = 0xFD /\
  bus_log (after (write_i2c_bits sensor PWR_MGMT_1 2 3 0) w) =
    [BusRead 0x68 0x68 0x00] /\
  regs (after (write_i2c_bits sensor PWR_MGMT_1 2 3 0) w) 0x68 PWR_MGMT_1
    = 0xFF.
Proof. cbv zeta. repeat split; vm_compute; reflexivity. Qed.

(** ** Power management *)

(** C5. The claim asks [reset] to write a byte with the device-reset
    bit (bit 7) set.  The one transaction of [reset] writes the byte
    0x01 to PWR_MGMT_1, whose bit 7 is clear (it selects clock source 1);
    nothing follows that write. *)
Theorem reset_writes_0x01 :
  forall (self : device) (w : world),
    reset self w = (Returns tt, logged_write w (address self) PWR_MGMT_1 0x01)
    /\ bus_log (after (reset self) w) =
       bus_log w ++ [BusWrite (address self) 0x6B 0x01]
    /\ Z.testbit 0x01 PWR1_DEVICE_RESET_BIT = false.
Proof. intros self w. repeat split. Qed.

(** C6. The claim asks the sleep, wake-cycle and clock-source accessors
    to read or write their bit or field of PWR_MGMT_1.  Each of the five
    raises before any bus transaction: four name a class attribute that
    does not exist (the class binds PWR1_DEVICE_SLEEP_BIT and
    PWR1_CYCLE_BIT), and [get_clock_source] passes four arguments to the
    three-parameter [read_i2c_bits]. *)
Theorem power_accessors_raise :
  forall (self : device) (w : world) (enabled : pyval),
    get_sleep_enabled self w = (Raises (AttributeError "PWR_1_SLEEP_BIT"), w)
    /\ set_sleep_enabled self enabled w =
       (Raises (AttributeError "PWR1_SLEEP_BIT"), w)
    /\ get_wake_cycle_enabled self w =
       (Raises (AttributeError "PWR_1_CYCLE_BIT"), w)
    /\ set_wake_cycle_enabled self enabled w =
       (Raises (AttributeError "PWR_1_CYCLE_BIT"), w)
    /\ get_clock_source self w = (Raises (TypeError "read_i2c_bits" 5), w).
Proof. intros self w enabled. repeat split. Qed.

Lemma land_pow2_eqb_0 (x n : Z) :
  0 <= n -> (Z.land x (Z.shiftl 1 n) =? 0) = negb (Z.testbit x n).
Proof.
  intros Hn. rewrite Z.shiftl_1_l.
  destruct (Z.testbit x n) eqn:Hb; cbn [negb].
  - apply Z.eqb_neq. intros E.
    assert (Hc : Z.testbit (Z.land x (2 ^ n)) n = true)
      by (rewrite Z.land_spec, Hb, Z.pow2_bits_true; [reflexivity | lia]).
    rewrite E, Z.bits_0 in Hc. discriminate.
  - apply Z.eqb_eq. apply Z.bits_inj'. intros m Hm.
    rewrite Z.land_spec, Z.bits_0, Z.pow2_bits_eqb by lia.
    destruct (Z.eqb_spec n m) as [-> | _].
    + rewrite Hb. reflexivity.
    + apply andb_false_r.
Qed.

(** The getter does invert the polarity: true exactly when bit 3 is 0. *)
Lemma get_temp_sensor_enabled_reads_bit3 self w :
  result (get_temp_sensor_enabled self) w =
  Returns (negb (Z.testbit (regs w (address self) PWR_MGMT_1) 3)).
Proof.
  unfold result, get_temp_sensor_enabled.
  change (fst (Returns (Z.land (regs w (address self) PWR_MGMT_1)
                          (Z.shiftl 1 3) =? 0),
               logged_read w (address self) PWR_MGMT_1) = 
          Returns (negb (Z.testbit (regs w (address self) PWR_MGMT_1) 3))).
  cbn [fst]. rewrite land_pow2_eqb_0 by lia. reflexivity.
Qed.

(** C7. The claim asks [set_temp_sensor_enabled(True)] to leave the
    disable bit (3) reading 0 and [set_temp_sensor_enabled(False)] to
    leave it reading 1.  The setter names the class attribute
    PWR_1_TEMP_DIS_BIT, which does not exist (the class binds
    PWR1_TEMP_DIS_BIT): it raises and the bus sees nothing.  With the
    bit set in 0x08 the sensor still reads as disabled after
    [set_temp_sensor_enabled(True)]; with the bit clear it still reads
    as enabled after [set_temp_sensor_enabled(False)]. *)
Theorem set_temp_sensor_enabled_raises :
  (forall (self : device) (w : world) (enabled : pyval),
      set_temp_sensor_enabled self enabled w =
      (Raises (AttributeError "PWR_1_TEMP_DIS_BIT"), w))
  /\ (let w := power_on (smbus.poke blank 0x68 PWR_MGMT_1 0x08) in
      let w' := after (set_temp_sensor_enabled sensor (PyBool true)) w in
      Z.testbit (regs w' 0x68 PWR_MGMT_1) PWR1_TEMP_DIS_BIT = true /\
      result (get_temp_sensor_enabled sensor) w' = Returns false)
  /\ (let w := power_on blank in
      let w' := after (set_temp_sensor_enabled sensor (PyBool false)) w in
      Z.testbit (regs w' 0x68 PWR_MGMT_1) PWR1_TEMP_DIS_BIT = false /\
      result (get_temp_sensor_enabled sensor) w' = Returns true).
Proof.
  split; [ | split].
  - intros self w enabled. reflexivity.
  - cbv zeta. split; vm_compute; reflexivity.
  - cbv zeta. split; vm_compute; reflexivity.
Qed.

(** ** Ranges and samples *)

Ltac step := erewrite bind_returns by reflexivity.
Ltac step_word := erewrite bind_returns by apply read_i2c_word_run.

Lemma poke_same f a r v : smbus.poke f a r v a r = v.
Proof. unfold smbus.poke. rewrite !Z.eqb_refl. reflexivity. Qed.

Lemma set_accel_range_run self X w :
  set_accel_range self X w =
  (Returns tt,
   logged_write (logged_write w (address self) ACCEL_CONFIG 0x00)
     (address self) ACCEL_CONFIG X).
Proof. reflexivity. Qed.

Lemma read_accel_range_raw_run self w :
  read_accel_range self (PyBool true) w =
  (Returns (PyInt (regs w (address self) ACCEL_CONFIG)),
   logged_read w (address self) ACCEL_CONFIG).
Proof. reflexivity. Qed.

Lemma read_accel_range_run self w :
  read_accel_range self (PyBool false) w =
  (Returns
     (PyInt (documented_accel_range (regs w (address self) ACCEL_CONFIG))),
   logged_read w (address self) ACCEL_CONFIG).
Proof.
  unfold read_accel_range, documented_accel_range.
  step. step. cbn [is_True is_False]. step.
  destruct (_ =? ACCEL_RANGE_2G); [reflexivity | step].
  destruct (_ =? ACCEL_RANGE_4G); [reflexivity | step].
  destruct (_ =? ACCEL_RANGE_8G); [reflexivity | step].
  destruct (_ =? ACCEL_RANGE_16G); reflexivity.
Qed.

Lemma read_gyro_range_raw_run self w :
  read_gyro_range self (PyBool true) w =
  (Returns (PyInt (regs w (address self) GYRO_CONFIG)),
   logged_read w (address self) GYRO_CONFIG).
Proof. reflexivity. Qed.

Lemma not_predefined_accel c :
  ~ predefined_accel_range c ->
  (c =? ACCEL_RANGE_2G) = false /\ (c =? ACCEL_RANGE_4G) = false /\
  (c =? ACCEL_RANGE_8G) = false /\ (c =? ACCEL_RANGE_16G) = false.
Proof.
  unfold predefined_accel_range. intros H.
  repeat split; apply Z.eqb_neq; intros E; apply H; auto.
Qed.

Lemma not_predefined_gyro c :
  ~ predefined_gyro_range c ->
  (c =? GYRO_RANGE_250DEG) = false /\ (c =? GYRO_RANGE_500DEG) = false /\
  (c =? GYRO_RANGE_1000DEG) = false /\ (c =? GYRO_RANGE_2000DEG) = false.
Proof.
  unfold predefined_gyro_range. intros H.
  repeat split; apply Z.eqb_neq; intros E; apply H; auto.
Qed.

(** C8. For each pre-defined accelerometer range [X], after
    [set_accel_range(X)] the raw read returns the byte [X] and the
    cooked read that follows returns the documented range (2, 4, 8 or 16
    for 0x00, 0x08, 0x10, 0x18); whenever the configuration register
    holds a byte outside the four, the cooked read returns -1. *)
Theorem accel_range_round_trip :
  forall (self : device) (w : world) (X : Z),
    predefined_accel_range X ->
    let w1 := after (set_accel_range self X) w in
    let w2 := after (read_accel_range self (PyBool true)) w1 in
    result (set_accel_range self X) w = Returns tt /\
    result (read_accel_range self (PyBool true)) w1 = Returns (PyInt X) /\
    result (read_accel_range self (PyBool false)) w2 =
      Returns (PyInt (documented_accel_range X)) /\
    (X = ACCEL_RANGE_2G -> documented_accel_range X = 2) /\
    (X = ACCEL_RANGE_4G -> documented_accel_range X = 4) /\
    (X = ACCEL_RANGE_8G -> documented_accel_range X = 8) /\
    (X = ACCEL_RANGE_16G -> documented_accel_range X = 16) /\
    (forall w' : world,
        ~ predefined_accel_range (regs w' (address self) ACCEL_CONFIG) ->
        result (read_accel_range self (PyBool false)) w' =
          Returns (PyInt (-1))).
Proof.
  intros self w X HX w1 w2.
  assert (Hreg : regs w1 (address self) ACCEL_CONFIG = X).
  { unfold w1, after. rewrite set_accel_range_run. cbn [snd].
    unfold logged_write at 1. cbn [regs]. apply poke_same. }
  split; [reflexivity | ].
  split.
  { unfold result. rewrite read_accel_range_raw_run. cbn [fst].
    rewrite Hreg. reflexivity. }
  split.
  { unfold result, w2, after. rewrite read_accel_range_run.
    rewrite read_accel_range_raw_run. cbn [fst snd].
    unfold logged_read at 1. cbn [regs]. rewrite Hreg. reflexivity. }
  repeat (split; [intros ->; reflexivity | ]).
  intros w' Hc. unfold result. rewrite read_accel_range_run. cbn [fst].
  destruct (not_predefined_accel _ Hc) as (H2 & H4 & H8 & H16).
  unfold documented_accel_range. rewrite H2, H4, H8, H16. reflexivity.
Qed.

Lemma accel_range_round_trip_witness :
  let w := power_on blank in
  let w1 := after (set_accel_range sensor ACCEL_RANGE_8G) w in
  let w2 := after (read_accel_range sensor (PyBool true)) w1 in
  let w' := power_on (smbus.poke blank 0x68 ACCEL_CONFIG 0x01) in
  predefined_accel_range ACCEL_RANGE_8G /\
  ~ predefined_accel_range (regs w' (address sensor) ACCEL_CONFIG) /\
  result (read_accel_range sensor (PyBool true)) w1 = Returns (PyInt 0x10) /\
  result (read_accel_range sensor (PyBool false)) w2 = Returns (PyInt 8) /\
  result (read_accel_range sensor (PyBool false)) w' = Returns (PyInt (-1)).
Proof.
  intros w w1 w2 w'.
  assert (HX : predefined_accel_range ACCEL_RANGE_8G)
    by (right; right; left; reflexivity).
  assert (Hc : ~ predefined_accel_range (regs w' (address sensor) ACCEL_CONFIG))
    by (intros [H | [H | [H | H]]]; discriminate H).
  pose proof (accel_range_round_trip sensor w ACCEL_RANGE_8G HX) as H.
  cbv zeta in H. destruct H as (_ & Hraw & Hcooked & _ & _ & _ & _ & Hunk).
  split; [exact HX | ]. split; [exact Hc | ].
  split; [exact Hraw | ]. split; [exact Hcooked | ]. exact (Hunk w' Hc).
Defined.

Lemma py_truediv_accel x c w :
  py_truediv x (accel_modifier c) w =
  (Returns (PrimFloat.div (float_of_Z x) (accel_modifier c)), w).
Proof.
  unfold accel_modifier.
  repeat (destruct (c =? _); [reflexivity | ]). reflexivity.
Qed.

Lemma py_truediv_gyro x c w :
  py_truediv x (gyro_modifier c) w =
  (Returns (PrimFloat.div (float_of_Z x) (gyro_modifier c)), w).
Proof.
  unfold gyro_modifier.
  repeat (destruct (c =? _); [reflexivity | ]). reflexivity.
Qed.

Lemma sampled_eq w a xout yout zout config :
  logged_read (logged_read (logged_read (logged_read (logged_read
    (logged_read (logged_read w a xout) a (xout + 1)) a yout) a (yout + 1))
    a zout) a (zout + 1)) a config
  = sampled w a xout yout zout config.
Proof.
  unfold logged_read, sampled, sample_reads. cbn [regs bus_log stdout].
  f_equal. repeat rewrite <- app_assoc. reflexivity.
Qed.

(** What [get_accel_data] does, for every flag and every device state. *)
Lemma get_accel_data_run self g w :
  let a := address self in
  let c := regs w a ACCEL_CONFIG in
  let m := accel_modifier c in
  let x := PrimFloat.div (float_of_Z (word_at w a ACCEL_XOUT0)) m in
  let y := PrimFloat.div (float_of_Z (word_at w a ACCEL_YOUT0)) m in
  let z := PrimFloat.div (float_of_Z (word_at w a ACCEL_ZOUT0)) m in
  let w' := sampled w a ACCEL_XOUT0 ACCEL_YOUT0 ACCEL_ZOUT0 ACCEL_CONFIG in
  get_accel_data self g w =
  (Returns
     (if is_True g then PyDict [("x", x); ("y", y); ("z", z)]
      else if is_False g then
        PyDict [("x", PrimFloat.mul x GRAVITIY_MS2);
                ("y", PrimFloat.mul y GRAVITIY_MS2);
                ("z", PrimFloat.mul z GRAVITIY_MS2)]
      else PyNone),
   if accel_known c then w' else printed w' accel_diagnostic).
Proof.
  intros a c m x y z w'. unfold get_accel_data.
  step. step_word. step. step_word. step. step_word.
  erewrite bind_returns by apply read_accel_range_raw_run.
  fold a. rewrite sampled_eq. fold w'.
  change (regs (logged_read _ _ _) a ACCEL_CONFIG) with c.
  change (word_at (logged_read _ _ _) a ACCEL_YOUT0)
    with (word_at w a ACCEL_YOUT0).
  change (word_at (logged_read _ _ _) a ACCEL_ZOUT0)
    with (word_at w a ACCEL_ZOUT0).
  match goal with
  | |- bind ?blk _ _ = _ =>
      assert (Hsel : blk w' =
                     (Returns m,
                      if accel_known c then w'
                      else printed w' accel_diagnostic))
  end.
  { step. cbn [py_eq_int]. unfold m, accel_modifier, accel_known.
    destruct (c =? ACCEL_RANGE_2G); [reflexivity | step].
    destruct (c =? ACCEL_RANGE_4G); [reflexivity | step].
    destruct (c =? ACCEL_RANGE_8G); [reflexivity | step].
    destruct (c =? ACCEL_RANGE_16G); reflexivity. }
  erewrite bind_returns by exact Hsel. clear Hsel.
  erewrite bind_returns by apply py_truediv_accel.
  erewrite bind_returns by apply py_truediv_accel.
  erewrite bind_returns by apply py_truediv_accel.
  fold m x y z.
  destruct (is_True g); [reflexivity | ].
  destruct (is_False g); reflexivity.
Qed.

Lemma get_gyro_data_run self w :
  let a := address self in
  let c := regs w a GYRO_CONFIG in
  let m := gyro_modifier c in
  let x := PrimFloat.div (float_of_Z (word_at w a GYRO_XOUT0)) m in
  let y := PrimFloat.div (float_of_Z (word_at w a GYRO_YOUT0)) m in
  let z := PrimFloat.div (float_of_Z (word_at w a GYRO_ZOUT0)) m in
  let w' := sampled w a GYRO_XOUT0 GYRO_YOUT0 GYRO_ZOUT0 GYRO_CONFIG in
  get_gyro_data self w =
  (Returns (PyDict [("x", x); ("y", y); ("z", z)]),
   if gyro_known c then w' else printed w' gyro_diagnostic).
Proof.
  intros a c m x y z w'. unfold get_gyro_data.
  step. step_word. step. step_word. step. step_word.
  erewrite bind_returns by apply read_gyro_range_raw_run.
  fold a. rewrite sampled_eq. fold w'.
  change (regs (logged_read _ _ _) a GYRO_CONFIG) with c.
  change (word_at (logged_read _ _ _) a GYRO_YOUT0)
    with (word_at w a GYRO_YOUT0).
  change (word_at (logged_read _ _ _) a GYRO_ZOUT0)
    with (word_at w a GYRO_ZOUT0).
  match goal with
  | |- bind ?blk _ _ = _ =>
      assert (Hsel : blk w' =
                     (Returns m,
                      if gyro_known c then w'
                      else printed w' gyro_diagnostic))
  end.
  { step. cbn [py_eq_int]. unfold m, gyro_modifier, gyro_known.
    destruct (c =? GYRO_RANGE_250DEG); [reflexivity | step].
    destruct (c =? GYRO_RANGE_500DEG); [reflexivity | step].
    destruct (c =? GYRO_RANGE_1000DEG); [reflexivity | step].
    destruct (c =? GYRO_RANGE_2000DEG); reflexivity. }
  erewrite bind_returns by exact Hsel. clear Hsel.
  erewrite bind_returns by apply py_truediv_gyro.
  erewrite bind_returns by apply py_truediv_gyro.
  erewrite bind_returns by apply py_truediv_gyro.
  reflexivity.
Qed.

(** C9. When the accelerometer configuration byte is none of the four
    documented values, [get_accel_data] raises nothing: it prints the
    diagnostic, divides the three raw words by the 2g modifier 16384.0
    and returns the scaled [{x, y, z}] (times standard gravity unless
    [g] is set); in the same way [get_gyro_data] prints its diagnostic
    and divides by the 250 deg/s modifier 131.0 on an unknown gyroscope
    configuration byte. *)
Theorem unrecognized_config_falls_back :
  forall (self : device) (w : world) (g : bool),
    let a := address self in
    (~ predefined_accel_range (regs w a ACCEL_CONFIG) ->
     let in_g r :=
       PrimFloat.div (float_of_Z (word_at w a r)) ACCEL_SCALE_MODIFIER_2G in
     let unit v := if g then v else PrimFloat.mul v GRAVITIY_MS2 in
     result (get_accel_data self (PyBool g)) w =
       Returns (PyDict [("x", unit (in_g ACCEL_XOUT0));
                        ("y", unit (in_g ACCEL_YOUT0));
                        ("z", unit (in_g ACCEL_ZOUT0))]) /\
     stdout (after (get_accel_data self (PyBool g)) w) =
       stdout w ++ [accel_diagnostic] /\
     ACCEL_SCALE_MODIFIER_2G = 16384%float)
    /\
    (~ predefined_gyro_range (regs w a GYRO_CONFIG) ->
     let in_dps r :=
       PrimFloat.div (float_of_Z (word_at w a r)) GYRO_SCALE_MODIFIER_250DEG in
     result (get_gyro_data self) w =
       Returns (PyDict [("x", in_dps GYRO_XOUT0);
                        ("y", in_dps GYRO_YOUT0);
                        ("z", in_dps GYRO_ZOUT0)]) /\
     stdout (after (get_gyro_data self) w) = stdout w ++ [gyro_diagnostic] /\
     GYRO_SCALE_MODIFIER_250DEG = 131%float).
Proof.
  intros self w g a. split.
  - intros Hc in_g unit.
    destruct (not_predefined_accel _ Hc) as (H2 & H4 & H8 & H16).
    unfold result, after. rewrite get_accel_data_run. fold a.
    unfold accel_modifier, accel_known. rewrite H2, H4, H8, H16.
    cbn [fst snd orb]. split; [ | split; reflexivity].
    destruct g; reflexivity.
  - intros Hc in_dps.
    destruct (not_predefined_gyro _ Hc) as (H2 & H4 & H8 & H16).
    unfold result, after. rewrite get_gyro_data_run. fold a.
    unfold gyro_modifier, gyro_known. rewrite H2, H4, H8, H16.
    cbn [fst snd orb]. split; [ | split]; reflexivity.
Qed.

Lemma unrecognized_config_falls_back_witness :
  let w := power_on (smbus.poke (smbus.poke (smbus.poke (smbus.poke blank
             0x68 ACCEL_CONFIG 0x01) 0x68 GYRO_CONFIG 0x01)
             0x68 ACCEL_XOUT0 0x40) 0x68 GYRO_XOUT0 0xFF) in
  ~ predefined_accel_range (regs w 0x68 ACCEL_CONFIG) /\
  ~ predefined_gyro_range (regs w 0x68 GYRO_CONFIG) /\
  result (get_accel_data sensor (PyBool true)) w =
    Returns (PyDict [("x", 1%float); ("y", 0%float); ("z", 0%float)]) /\
  stdout (after (get_accel_data sensor (PyBool true)) w) =
    [accel_diagnostic] /\
  result (get_gyro_data sensor) w =
    Returns (PyDict [("x", PrimFloat.div (-256)%float 131%float);
                     ("y", 0%float); ("z", 0%float)]) /\
  stdout (after (get_gyro_data sensor) w) = [gyro_diagnostic].
Proof.
  intros w.
  assert (Ha : ~ predefined_accel_range (regs w 0x68 ACCEL_CONFIG))
    by (intros [H | [H | [H | H]]]; discriminate H).
  assert (Hg : ~ predefined_gyro_range (regs w 0x68 GYRO_CONFIG))
    by (intros [H | [H | [H | H]]]; discriminate H).
  destruct (unrecognized_config_falls_back sensor w true) as [Hacc Hgyr].
  destruct (Hacc Ha) as (Hr & Hout & _).
  destruct (Hgyr Hg) as (Hr' & Hout' & _).
  split; [exact Ha | ]. split; [exact Hg | ].
  split; [exact Hr | ]. split; [exact Hout | ].
  split; [exact Hr' | exact Hout'].
Defined.

Lemma not_True_not_False v :
  v <> PyBool true -> v <> PyBool false ->
  is_True v = false /\ is_False v = false.
Proof.
  intros Ht Hf. destruct v as [ | [ | ] | | | | ]; try (split; reflexivity).
  - contradiction Ht; reflexivity.
  - contradiction Hf; reflexivity.
Qed.

(** C10. The flags are compared with [is]: for every argument other
    than the objects [True] and [False] (1, 0, a string, ...),
    [read_accel_range], [read_gyro_range] and [get_accel_data] fall
    through both branches and return [None]; [get_accel_data] has by
    then performed its six measurement reads and the configuration
    read. *)
Theorem non_bool_flag_returns_None :
  forall (self : device) (w : world) (v : pyval),
    v <> PyBool true -> v <> PyBool false ->
    result (read_accel_range self v) w = Returns PyNone /\
    result (read_gyro_range self v) w = Returns PyNone /\
    result (get_accel_data self v) w = Returns PyNone /\
    bus_log (after (get_accel_data self v) w) =
      bus_log w ++
      sample_reads w (address self)
        ACCEL_XOUT0 ACCEL_YOUT0 ACCEL_ZOUT0 ACCEL_CONFIG.
Proof.
  intros self w v Ht Hf.
  destruct (not_True_not_False v Ht Hf) as [HT HF].
  split; [ | split; [ | split]].
  - unfold result, read_accel_range. step. step. rewrite HT, HF. reflexivity.
  - unfold result, read_gyro_range. step. step. rewrite HT, HF. reflexivity.
  - unfold result. rewrite get_accel_data_run. rewrite HT, HF. reflexivity.
  - unfold after. rewrite get_accel_data_run. cbn [snd].
    destruct (accel_known _); reflexivity.
Qed.

Lemma non_bool_flag_returns_None_witness :
  let w := power_on blank in
  PyInt 1 <> PyBool true /\ PyInt 1 <> PyBool false /\
  result (read_accel_range sensor (PyInt 1)) w = Returns PyNone /\
  result (read_gyro_range sensor (PyInt 1)) w = Returns PyNone /\
  result (get_accel_data sensor (PyInt 1)) w = Returns PyNone /\
  bus_log (after (get_accel_data sensor (PyInt 1)) w) =
    [ BusRead 0x68 0x3B 0; BusRead 0x68 0x3C 0; BusRead 0x68 0x3D 0;
      BusRead 0x68 0x3E 0; BusRead 0x68 0x3F 0; BusRead 0x68 0x40 0;
      BusRead 0x68 0x1C 0 ].
Proof.
  intros w.
  assert (Ht : PyInt 1 <> PyBool true) by discriminate.
  assert (Hf : PyInt 1 <> PyBool false) by discriminate.
  split; [exact Ht | ]. split; [exact Hf | ].
  exact (non_bool_flag_returns_None sensor w (PyInt 1) Ht Hf).
Defined.

(** * Further properties of the driver *)

(** ** Single bits *)

Lemma land_pow2 x n :
  0 <= n -> Z.land x (2 ^ n) = if Z.testbit x n then 2 ^ n else 0.
Proof.
  intros Hn. apply Z.bits_inj'. intros m Hm.
  rewrite Z.land_spec, Z.pow2_bits_eqb by lia.
  destruct (Z.eqb_spec n m) as [-> | Hnm].
  - destruct (Z.testbit x m).
    + rewrite Z.pow2_bits_true by lia. reflexivity.
    + rewrite Z.bits_0. reflexivity.
  - rewrite andb_false_r. destruct (Z.testbit x n).
    + rewrite Z.pow2_bits_false by lia. reflexivity.
    + rewrite Z.bits_0. reflexivity.
Qed.

(** X1. [read_i2c_bit] performs one bus read and returns the bit in
    place: [2 ^ bitNum] when the bit is set and 0 when it is clear (so
    the result is the flag 1 only for bit 0), for every bit position
    from 0 up. *)
Theorem read_i2c_bit_in_place :
  forall (self : device) (register bitNum : Z) (w : world),
    0 <= bitNum ->
    read_i2c_bit self register bitNum w =
    (Returns (if Z.testbit (regs w (address self) register) bitNum
              then 2 ^ bitNum else 0),
     logged_read w (address self) register).
Proof.
  intros self register bitNum w Hn. unfold read_i2c_bit, read_i2c_byte.
  rewrite (bind_returns _ _ w _ (logged_read w (address self) register))
    by reflexivity.
  erewrite bind_returns by (apply py_lshift_nonneg; lia).
  rewrite Z.shiftl_1_l, land_pow2 by lia. reflexivity.
Qed.

Lemma read_i2c_bit_in_place_witness :
  let w := power_on (smbus.poke blank 0x68 PWR_MGMT_1 0x40) in
  0 <= 6 /\
  read_i2c_bit sensor PWR_MGMT_1 6 w =
  (Returns 64, logged_read w 0x68 PWR_MGMT_1).
Proof.
  intros w. split; [lia | ].
  exact (read_i2c_bit_in_place sensor PWR_MGMT_1 6 w ltac:(lia)).
Defined.

Lemma py_lshift_negative a n w :
  n < 0 -> py_lshift a n w = (Raises (ValueError "negative shift count"), w).
Proof.
  intros Hn. unfold py_lshift.
  destruct (Z.ltb_spec n 0); [reflexivity | lia].
Qed.

(** X2. A negative bit position is an error of the shift, raised after
    the register was read: [read_i2c_bit] and [write_i2c_bit] both raise
    ValueError with one read on the bus and, for the writer, no write. *)
Theorem negative_bit_position_raises :
  forall (self : device) (register bitNum : Z) (value : pyval) (w : world),
    bitNum < 0 ->
    read_i2c_bit self register bitNum w =
      (Raises (ValueError "negative shift count"),
       logged_read w (address self) register) /\
    write_i2c_bit self register bitNum value w =
      (Raises (ValueError "negative shift count"),
       logged_read w (address self) register).
Proof.
  intros self register bitNum value w Hn. split.
  - unfold read_i2c_bit, read_i2c_byte.
    rewrite (bind_returns _ _ w _ (logged_read w (address self) register))
      by reflexivity.
    erewrite bind_raises by (apply py_lshift_negative; lia). reflexivity.
  - unfold write_i2c_bit, read_i2c_byte.
    rewrite (bind_returns _ _ w _ (logged_read w (address self) register))
      by reflexivity.
    destruct (negb (regs w (address self) register =? 0)).
    + erewrite bind_raises
        by (erewrite bind_raises by (apply py_lshift_negative; lia);
            reflexivity).
      reflexivity.
    + erewrite bind_raises
        by (erewrite bind_raises by (apply py_lshift_negative; lia);
            reflexivity).
      reflexivity.
Qed.

Lemma negative_bit_position_raises_witness :
  let w := power_on blank in
  -1 < 0 /\
  read_i2c_bit sensor PWR_MGMT_1 (-1) w =
    (Raises (ValueError "negative shift count"),
     logged_read w 0x68 PWR_MGMT_1) /\
  write_i2c_bit sensor PWR_MGMT_1 (-1) (PyBool true) w =
    (Raises (ValueError "negative shift count"),
     logged_read w 0x68 PWR_MGMT_1).
Proof.
  intros w. split; [lia | ].
  exact (negative_bit_position_raises sensor PWR_MGMT_1 (-1) (PyBool true) w
           ltac:(lia)).
Defined.



(** ** Bit fields *)

Lemma field_mask_ones bitStart len :
  0 <= len ->
  field_mask bitStart len = Z.shiftl (Z.ones len) (bitStart - len + 1).
Proof.
  intros Hl. unfold field_mask.
  rewrite Z.shiftl_1_l, Z.ones_equiv, <- Z.sub_1_r. reflexivity.
Qed.



Lemma field_div_mod byte bitStart len :
  0 <= len <= bitStart + 1 ->
  field byte bitStart len = (byte / 2 ^ (bitStart - len + 1)) mod 2 ^ len.
Proof.
  intros Hf. unfold field. fold (field_mask bitStart len).
  rewrite field_mask_ones by lia.
  rewrite Z.shiftr_land, Z.shiftr_shiftl_l by lia.
  rewrite Z.sub_diag, Z.shiftl_0_r, Z.land_ones by lia.
  rewrite Z.shiftr_div_pow2 by lia. reflexivity.
Qed.

(** X4. On a non-zero byte and a field with [0 <= length <= bitStart+1],
    [read_i2c_bits] returns the integer [(byte / 2^(bitStart-length+1))
    mod 2^length], a value from 0 to [2^length - 1], after one bus
    read. *)
Theorem read_i2c_bits_div_mod :
  forall (self : device) (register bitStart len : Z) (w : world),
    regs w (address self) register <> 0 ->
    0 <= len <= bitStart + 1 ->
    let byte := regs w (address self) register in
    let v := (byte / 2 ^ (bitStart - len + 1)) mod 2 ^ len in
    result (read_i2c_bits self register bitStart len) w = Returns (PyInt v) /\
    0 <= v < 2 ^ len /\
    bus_log (after (read_i2c_bits self register bitStart len) w) =
      bus_log w ++ [BusRead (address self) register byte].
Proof.
  intros self register bitStart len w Hnz Hf byte v.
  split; [ | split].
  - rewrite read_i2c_bits_nonzero by assumption.
    rewrite field_div_mod by lia. reflexivity.
  - apply Z.mod_pos_bound. apply Z.pow_pos_nonneg; lia.
  - unfold after, read_i2c_bits, read_i2c_byte.
    rewrite (bind_returns _ _ w _ (logged_read w (address self) register))
      by reflexivity.
    destruct (Z.eqb_spec (regs w (address self) register) 0) as [E | _];
      [contradiction | ].
    cbn [negb].
    erewrite bind_returns by (apply py_lshift_nonneg; lia).
    erewrite bind_returns by (apply py_lshift_nonneg; lia).
    erewrite bind_returns by (apply py_rshift_nonneg; lia).
    reflexivity.
Qed.

Lemma read_i2c_bits_div_mod_witness :
  let w := power_on (smbus.poke blank 0x68 GYRO_CONFIG 0x18) in
  regs w (address sensor) GYRO_CONFIG <> 0 /\
  0 <= 2 <= 4 + 1 /\
  result (read_i2c_bits sensor GYRO_CONFIG 4 2) w = Returns (PyInt 3).
Proof.
  intros w.
  assert (Hnz : regs w (address sensor) GYRO_CONFIG <> 0) by discriminate.
  pose proof (read_i2c_bits_div_mod sensor GYRO_CONFIG 4 2 w Hnz ltac:(lia))
    as H.
  cbv zeta in H. destruct H as (H & _ & _).
  split; [exact Hnz | ]. split; [lia | exact H].
Defined.

(** X5. A field that does not fit ([length < 0] or
    [length > bitStart + 1]) makes a shift count negative: on a non-zero
    byte [read_i2c_bits] raises ValueError, and with non-zero [data]
    [write_i2c_bits] raises ValueError; in both cases the bus has seen
    the one read and no write. *)
Theorem ill_formed_field_raises :
  forall (self : device) (register bitStart len data : Z) (w : world),
    len < 0 \/ bitStart + 1 < len ->
    (regs w (address self) register <> 0 ->
     read_i2c_bits self register bitStart len w =
       (Raises (ValueError "negative shift count"),
        logged_read w (address self) register)) /\
    (data <> 0 ->
     write_i2c_bits self register bitStart len data w =
       (Raises (ValueError "negative shift count"),
        logged_read w (address self) (address self))).
Proof.
  intros self register bitStart len data w Hbad. split.
  - intros Hnz. unfold read_i2c_bits, read_i2c_byte.
    rewrite (bind_returns _ _ w _ (logged_read w (address self) register))
      by reflexivity.
    destruct (Z.eqb_spec (regs w (address self) register) 0) as [E | _];
      [contradiction | ].
    cbn [negb]. destruct (Z.ltb_spec len 0) as [Hneg | Hpos].
    + erewrite bind_raises by (apply py_lshift_negative; lia). reflexivity.
    + erewrite bind_returns by (apply py_lshift_nonneg; lia).
      erewrite bind_raises by (apply py_lshift_negative; lia). reflexivity.
  - intros Hnz. unfold write_i2c_bits, read_i2c_byte.
    rewrite (bind_returns _ _ w _
               (logged_read w (address self) (address self)))
      by reflexivity.
    destruct (Z.eqb_spec data 0) as [E | _]; [contradiction | ].
    cbn [negb]. destruct (Z.ltb_spec len 0) as [Hneg | Hpos].
    + erewrite bind_raises by (apply py_lshift_negative; lia). reflexivity.
    + erewrite bind_returns by (apply py_lshift_nonneg; lia).
      erewrite bind_raises by (apply py_lshift_negative; lia). reflexivity.
Qed.

Lemma ill_formed_field_raises_witness :
  let w := power_on (smbus.poke blank 0x68 PWR_MGMT_1 0x40) in
  (4 < 0 \/ 2 + 1 < 4) /\
  read_i2c_bits sensor PWR_MGMT_1 2 4 w =
    (Raises (ValueError "negative shift count"),
     logged_read w 0x68 PWR_MGMT_1) /\
  write_i2c_bits sensor PWR_MGMT_1 2 4 1 w =
    (Raises (ValueError "negative shift count"), logged_read w 0x68 0x68).
Proof.
  intros w.
  assert (Hbad : 4 < 0 \/ 2 + 1 < 4) by (right; lia).
  destruct (ill_formed_field_raises sensor PWR_MGMT_1 2 4 1 w Hbad)
    as [Hr Hw].
  split; [exact Hbad | ]. split.
  - apply Hr. discriminate.
  - apply Hw. discriminate.
Defined.

Lemma write_i2c_bits_run self register bitStart len data w :
  data <> 0 -> 0 <= len <= bitStart + 1 ->
  write_i2c_bits self register bitStart len data w =
  (Returns tt,
   logged_write (logged_read w (address self) (address self))
     (address self) register
     (deposit (regs w (address self) (address self)) bitStart len data)).
Proof.
  intros Hnz Hf. unfold write_i2c_bits, read_i2c_byte.
  rewrite (bind_returns _ _ w _
             (logged_read w (address self) (address self)))
    by reflexivity.
  destruct (Z.eqb_spec data 0) as [E | _]; [contradiction | ].
  cbn [negb].
  erewrite bind_returns by (apply py_lshift_nonneg; lia).
  erewrite bind_returns by (apply py_lshift_nonneg; lia).
  erewrite bind_returns by (apply py_lshift_nonneg; lia).
  reflexivity.
Qed.








Lemma poke_other f a r v a' r' :
  a' <> a \/ r' <> r -> smbus.poke f a r v a' r' = f a' r'.
Proof.
  intros H. unfold smbus.poke.
  destruct (Z.eqb_spec a' a); destruct (Z.eqb_spec r' r);
    cbn [andb]; try reflexivity.
  destruct H; contradiction.
Qed.

Lemma write_i2c_bits_zero self register bitStart len w :
  write_i2c_bits self register bitStart len 0 w =
  (Returns tt, logged_read w (address self) (address self)).
Proof. reflexivity. Qed.

Lemma write_i2c_bit_negative self register bitNum value w :
  bitNum < 0 ->
  regs (after (write_i2c_bit self register bitNum value) w) = regs w.
Proof.
  intros Hn. unfold after, write_i2c_bit, read_i2c_byte.
  rewrite (bind_returns _ _ w _ (logged_read w (address self) register))
    by reflexivity.
  destruct (negb (regs w (address self) register =? 0));
    erewrite bind_raises
      by (erewrite bind_raises by (apply py_lshift_negative; lia);
          reflexivity);
    reflexivity.
Qed.

Lemma write_i2c_bits_ill_formed self register bitStart len data w :
  len < 0 \/ bitStart + 1 < len ->
  regs (after (write_i2c_bits self register bitStart len data) w) = regs w.
Proof.
  intros Hbad. unfold after, write_i2c_bits, read_i2c_byte.
  rewrite (bind_returns _ _ w _
             (logged_read w (address self) (address self)))
    by reflexivity.
  destruct (negb (data =? 0)); [ | reflexivity].
  destruct (Z.ltb_spec len 0) as [Hneg | Hpos].
  - erewrite bind_raises by (apply py_lshift_negative; lia). reflexivity.
  - erewrite bind_returns by (apply py_lshift_nonneg; lia).
    erewrite bind_raises by (apply py_lshift_negative; lia). reflexivity.
Qed.

(** X8. The two read-modify-write methods change no register but the
    one they are given: for every argument, ill-formed ones included,
    every other register of every device reads as before. *)
Theorem bit_writers_touch_one_register :
  forall (self : device) (register bitNum bitStart len data : Z)
         (value : pyval) (w : world) (a' r' : Z),
    a' <> address self \/ r' <> register ->
    regs (after (write_i2c_bit self register bitNum value) w) a' r'
      = regs w a' r' /\
    regs (after (write_i2c_bits self register bitStart len data) w) a' r'
      = regs w a' r'.
Proof.
  intros self register bitNum bitStart len data value w a' r' Hne. split.
  - destruct (Z.ltb_spec bitNum 0) as [Hneg | Hpos].
    + rewrite write_i2c_bit_negative by lia. reflexivity.
    + unfold after. rewrite write_i2c_bit_run by lia. cbn [snd].
      unfold logged_write. cbn [regs]. apply poke_other. exact Hne.
  - destruct (Z_lt_le_dec len 0) as [Hneg | Hpos];
      [ | destruct (Z_lt_le_dec (bitStart + 1) len) as [Hbig | Hfit]].
    + rewrite write_i2c_bits_ill_formed by (left; lia). reflexivity.
    + rewrite write_i2c_bits_ill_formed by (right; lia). reflexivity.
    + destruct (Z.eq_dec data 0) as [-> | Hnz].
      * unfold after. rewrite write_i2c_bits_zero. reflexivity.
      * unfold after. rewrite write_i2c_bits_run by lia. cbn [snd].
        unfold logged_write. cbn [regs]. apply poke_other. exact Hne.
Qed.

Lemma bit_writers_touch_one_register_witness :
  let w := power_on (smbus.poke blank 0x68 PWR_MGMT_2 0x3F) in
  (0x68 <> address sensor \/ PWR_MGMT_2 <> PWR_MGMT_1) /\
  regs (after (write_i2c_bit sensor PWR_MGMT_1 6 (PyBool true)) w)
    0x68 PWR_MGMT_2 = 0x3F /\
  regs (after (write_i2c_bits sensor PWR_MGMT_1 2 3 5) w)
    0x68 PWR_MGMT_2 = 0x3F.
Proof.
  intros w.
  assert (Hne : 0x68 <> address sensor \/ PWR_MGMT_2 <> PWR_MGMT_1)
    by (right; discriminate).
  split; [exact Hne | ].
  exact (bit_writers_touch_one_register sensor PWR_MGMT_1 6 2 3 5
           (PyBool true) w 0x68 PWR_MGMT_2 Hne).
Defined.

(** ** Range configuration *)

Lemma set_gyro_range_run self X w :
  set_gyro_range self X w =
  (Returns tt,
   logged_write (logged_write w (address self) GYRO_CONFIG 0x00)
     (address self) GYRO_CONFIG X).
Proof. reflexivity. Qed.

Lemma read_gyro_range_run self w :
  read_gyro_range self (PyBool false) w =
  (Returns
     (PyInt (documented_gyro_range (regs w (address self) GYRO_CONFIG))),
   logged_read w (address self) GYRO_CONFIG).
Proof.
  unfold read_gyro_range, documented_gyro_range.
  step. step. cbn [is_True is_False]. step.
  destruct (_ =? GYRO_RANGE_250DEG); [reflexivity | step].
  destruct (_ =? GYRO_RANGE_500DEG); [reflexivity | step].
  destruct (_ =? GYRO_RANGE_1000DEG); [reflexivity | step].
  destruct (_ =? GYRO_RANGE_2000DEG); reflexivity.
Qed.

(** X9. For every byte [X], pre-defined or not, [set_gyro_range(X)]
    followed by the raw [read_gyro_range] returns [X], and the cooked
    read that follows returns 250, 500, 1000 or 2000 for 0x00, 0x08,
    0x10, 0x18 and -1 for any other [X]. *)
Theorem gyro_range_round_trip :
  forall (self : device) (w : world) (X : Z),
    let w1 := after (set_gyro_range self X) w in
    let w2 := after (read_gyro_range self (PyBool true)) w1 in
    result (set_gyro_range self X) w = Returns tt /\
    result (read_gyro_range self (PyBool true)) w1 = Returns (PyInt X) /\
    result (read_gyro_range self (PyBool false)) w2 =
      Returns (PyInt (documented_gyro_range X)) /\
    (X = GYRO_RANGE_250DEG -> documented_gyro_range X = 250) /\
    (X = GYRO_RANGE_500DEG -> documented_gyro_range X = 500) /\
    (X = GYRO_RANGE_1000DEG -> documented_gyro_range X = 1000) /\
    (X = GYRO_RANGE_2000DEG -> documented_gyro_range X = 2000) /\
    (~ predefined_gyro_range X -> documented_gyro_range X = -1).
Proof.
  intros self w X w1 w2.
  assert (Hreg : regs w1 (address self) GYRO_CONFIG = X).
  { unfold w1, after. rewrite set_gyro_range_run. cbn [snd].
    unfold logged_write at 1. cbn [regs]. apply poke_same. }
  split; [reflexivity | ].
  split.
  { unfold result. rewrite read_gyro_range_raw_run. cbn [fst].
    rewrite Hreg. reflexivity. }
  split.
  { unfold result, w2, after. rewrite read_gyro_range_run.
    rewrite read_gyro_range_raw_run. cbn [fst snd].
    unfold logged_read at 1. cbn [regs]. rewrite Hreg. reflexivity. }
  repeat (split; [intros ->; reflexivity | ]).
  intros Hc. destruct (not_predefined_gyro _ Hc) as (H2 & H4 & H8 & H16).
  unfold documented_gyro_range. rewrite H2, H4, H8, H16. reflexivity.
Qed.

(** X10. Each range setter performs exactly two writes to its
    configuration register, first 0x00 and then the range byte, and no
    read; every other register of every device reads as before. *)
Theorem range_setters_two_writes :
  forall (self : device) (w : world) (X : Z),
    let a := address self in
    bus_log (after (set_accel_range self X) w) =
      bus_log w ++ [BusWrite a ACCEL_CONFIG 0x00; BusWrite a ACCEL_CONFIG X]
    /\
    bus_log (after (set_gyro_range self X) w) =
      bus_log w ++ [BusWrite a GYRO_CONFIG 0x00; BusWrite a GYRO_CONFIG X]
    /\
    (forall a' r' : Z, a' <> a \/ r' <> ACCEL_CONFIG ->
       regs (after (set_accel_range self X) w) a' r' = regs w a' r') /\
    (forall a' r' : Z, a' <> a \/ r' <> GYRO_CONFIG ->
       regs (after (set_gyro_range self X) w) a' r' = regs w a' r').
Proof.
  intros self w X a. split; [ | split; [ | split]].
  - unfold after. rewrite set_accel_range_run. cbn [snd].
    unfold logged_write. cbn [bus_log]. rewrite <- app_assoc. reflexivity.
  - unfold after. rewrite set_gyro_range_run. cbn [snd].
    unfold logged_write. cbn [bus_log]. rewrite <- app_assoc. reflexivity.
  - intros a' r' Hne. unfold after. rewrite set_accel_range_run. cbn [snd].
    unfold logged_write. cbn [regs]. rewrite !poke_other by exact Hne.
    reflexivity.
  - intros a' r' Hne. unfold after. rewrite set_gyro_range_run. cbn [snd].
    unfold logged_write. cbn [regs]. rewrite !poke_other by exact Hne.
    reflexivity.
Qed.

(** ** Samples *)

Lemma predefined_accel_known c :
  predefined_accel_range c -> accel_known c = true.
Proof. intros [-> | [-> | [-> | ->]]]; reflexivity. Qed.

Lemma predefined_gyro_known c :
  predefined_gyro_range c -> gyro_known c = true.
Proof. intros [-> | [-> | [-> | ->]]]; reflexivity. Qed.

(** X11. When the configuration byte is one of the four pre-defined
    values, the sample readers print nothing and divide the three raw
    words by the modifier of that range: 16384, 8192, 4096, 2048 for the
    accelerometer (then times standard gravity unless [g] is set), and
    131, 65.5, 32.8, 16.4 for the gyroscope. *)
Theorem recognized_config_scales :
  forall (self : device) (w : world) (g : bool),
    let a := address self in
    (predefined_accel_range (regs w a ACCEL_CONFIG) ->
     let m := accel_modifier (regs w a ACCEL_CONFIG) in
     let scaled r := PrimFloat.div (float_of_Z (word_at w a r)) m in
     let unit v := if g then v else PrimFloat.mul v GRAVITIY_MS2 in
     result (get_accel_data self (PyBool g)) w =
       Returns (PyDict [("x", unit (scaled ACCEL_XOUT0));
                        ("y", unit (scaled ACCEL_YOUT0));
                        ("z", unit (scaled ACCEL_ZOUT0))]) /\
     stdout (after (get_accel_data self (PyBool g)) w) = stdout w)
    /\
    (predefined_gyro_range (regs w a GYRO_CONFIG) ->
     let m := gyro_modifier (regs w a GYRO_CONFIG) in
     let scaled r := PrimFloat.div (float_of_Z (word_at w a r)) m in
     result (get_gyro_data self) w =
       Returns (PyDict [("x", scaled GYRO_XOUT0);
                        ("y", scaled GYRO_YOUT0);
                        ("z", scaled GYRO_ZOUT0)]) /\
     stdout (after (get_gyro_data self) w) = stdout w)
    /\
    accel_modifier ACCEL_RANGE_2G = 16384%float /\
    accel_modifier ACCEL_RANGE_4G = 8192%float /\
    accel_modifier ACCEL_RANGE_8G = 4096%float /\
    accel_modifier ACCEL_RANGE_16G = 2048%float /\
    gyro_modifier GYRO_RANGE_250DEG = 131%float /\
    gyro_modifier GYRO_RANGE_500DEG = GYRO_SCALE_MODIFIER_500DEG /\
    gyro_modifier GYRO_RANGE_1000DEG = GYRO_SCALE_MODIFIER_1000DEG /\
    gyro_modifier GYRO_RANGE_2000DEG = GYRO_SCALE_MODIFIER_2000DEG.
Proof.
  intros self w g a. split; [ | split].
  - intros Hc m scaled unit. unfold result, after.
    rewrite get_accel_data_run. fold a.
    rewrite (predefined_accel_known _ Hc). cbn [fst snd]. split.
    + destruct g; reflexivity.
    + reflexivity.
  - intros Hc m scaled. unfold result, after.
    rewrite get_gyro_data_run. fold a.
    rewrite (predefined_gyro_known _ Hc). cbn [fst snd].
    split; reflexivity.
  - repeat split.
Qed.

Lemma recognized_config_scales_witness :
  let w := power_on (smbus.poke (smbus.poke (smbus.poke (smbus.poke blank
             0x68 ACCEL_CONFIG 0x08) 0x68 GYRO_CONFIG 0x00)
             0x68 ACCEL_XOUT0 0x20) 0x68 GYRO_XOUT0 0xFF) in
  predefined_accel_range (regs w 0x68 ACCEL_CONFIG) /\
  predefined_gyro_range (regs w 0x68 GYRO_CONFIG) /\
  result (get_accel_data sensor (PyBool true)) w =
    Returns (PyDict [("x", 1%float); ("y", 0%float); ("z", 0%float)]) /\
  stdout (after (get_accel_data sensor (PyBool true)) w) = [] /\
  result (get_gyro_data sensor) w =
    Returns (PyDict [("x", PrimFloat.div (-256)%float 131%float);
                     ("y", 0%float); ("z", 0%float)]) /\
  stdout (after (get_gyro_data sensor) w) = [].
Proof.
  intros w.
  assert (Ha : predefined_accel_range (regs w 0x68 ACCEL_CONFIG))
    by (right; left; reflexivity).
  assert (Hg : predefined_gyro_range (regs w 0x68 GYRO_CONFIG))
    by (left; reflexivity).
  destruct (recognized_config_scales sensor w true) as (Hacc & Hgyr & _).
  destruct (Hacc Ha) as (Hr & Hout).
  destruct (Hgyr Hg) as (Hr' & Hout').
  split; [exact Ha | ]. split; [exact Hg | ].
  split; [exact Hr | ]. split; [exact Hout | ].
  split; [exact Hr' | exact Hout'].
Defined.

(** ** The readers are read-only *)

Lemma reads_only_ret {A} (a : A) : reads_only (ret a).
Proof.
  intros w. split; [reflexivity | ].
  exists []. split; [symmetry; apply app_nil_r | reflexivity].
Qed.

Lemma reads_only_raise {A} (e : exn) : reads_only (@raise A e).
Proof.
  intros w. split; [reflexivity | ].
  exists []. split; [symmetry; apply app_nil_r | reflexivity].
Qed.

Lemma reads_only_print line : reads_only (print line).
Proof.
  intros w. split; [reflexivity | ].
  exists []. split; [symmetry; apply app_nil_r | reflexivity].
Qed.

Lemma reads_only_read_byte_data addr reg :
  reads_only (smbus.read_byte_data addr reg).
Proof.
  intros w. split; [reflexivity | ].
  exists [BusRead addr reg (regs w addr reg)]. split; reflexivity.
Qed.

Lemma reads_only_bind {A B} (m : M A) (k : A -> M B) :
  reads_only m -> (forall a, reads_only (k a)) -> reads_only (bind m k).
Proof.
  intros Hm Hk w. destruct (Hm w) as (Hr & l & Hl & Hall).
  unfold after in *. unfold bind.
  destruct (m w) as [[a | e] w1]; cbn [snd] in *.
  - destruct (Hk a w1) as (Hr' & l' & Hl' & Hall'). unfold after in *.
    split; [congruence | ].
    exists (l ++ l'). split.
    + rewrite Hl', Hl, app_assoc. reflexivity.
    + rewrite forallb_app, Hall, Hall'. reflexivity.
  - split; [exact Hr | ]. exists l. split; assumption.
Qed.

Lemma reads_only_getattr name : reads_only (getattr name).
Proof.
  unfold getattr. destruct (lookup name class_dict);
    [apply reads_only_ret | apply reads_only_raise].
Qed.

Lemma reads_only_as_int v : reads_only (as_int v).
Proof.
  destruct v; first [apply reads_only_ret | apply reads_only_raise].
Qed.

Lemma reads_only_as_float v : reads_only (as_float v).
Proof.
  destruct v; first [apply reads_only_ret | apply reads_only_raise].
Qed.

Lemma reads_only_int_attr name : reads_only (int_attr name).
Proof.
  apply reads_only_bind; [apply reads_only_getattr | ].
  intros v. apply reads_only_as_int.
Qed.

Lemma reads_only_float_attr name : reads_only (float_attr name).
Proof.
  apply reads_only_bind; [apply reads_only_getattr | ].
  intros v. apply reads_only_as_float.
Qed.

Lemma reads_only_py_lshift a n : reads_only (py_lshift a n).
Proof.
  unfold py_lshift. destruct (n <? 0);
    [apply reads_only_raise | apply reads_only_ret].
Qed.

Lemma reads_only_py_rshift a n : reads_only (py_rshift a n).
Proof.
  unfold py_rshift. destruct (n <? 0);
    [apply reads_only_raise | apply reads_only_ret].
Qed.

Lemma reads_only_py_truediv x m : reads_only (py_truediv x m).
Proof.
  unfold py_truediv. destruct (PrimFloat.eqb m 0);
    [apply reads_only_raise | apply reads_only_ret].
Qed.

Ltac quiet :=
  repeat first
    [ apply reads_only_ret
    | apply reads_only_raise
    | apply reads_only_print
    | apply reads_only_read_byte_data
    | apply reads_only_int_attr
    | apply reads_only_float_attr
    | apply reads_only_getattr
    | apply reads_only_as_int
    | apply reads_only_py_lshift
    | apply reads_only_py_rshift
    | apply reads_only_py_truediv
    | assumption
    | apply reads_only_bind; [ | intro ]
    | progress cbv zeta
    | match goal with
      | |- reads_only (if ?b then _ else _) => destruct b
      | |- reads_only (match ?l with [] => _ | _ :: _ => _ end) =>
          destruct l
      end ].

Lemma reads_only_read_i2c_byte self register :
  reads_only (read_i2c_byte self register).
Proof. unfold read_i2c_byte. quiet. Qed.

Lemma reads_only_read_i2c_bit self register bitNum :
  reads_only (read_i2c_bit self register bitNum).
Proof. unfold read_i2c_bit, read_i2c_byte. quiet. Qed.

Lemma reads_only_read_i2c_bits self register bitStart len :
  reads_only (read_i2c_bits self register bitStart len).
Proof. unfold read_i2c_bits, read_i2c_byte. quiet. Qed.

Lemma reads_only_read_i2c_word self register :
  reads_only (read_i2c_word self register).
Proof. unfold read_i2c_word. quiet. Qed.

Lemma reads_only_read_accel_range self raw :
  reads_only (read_accel_range self raw).
Proof. unfold read_accel_range. quiet. Qed.

Lemma reads_only_read_gyro_range self raw :
  reads_only (read_gyro_range self raw).
Proof. unfold read_gyro_range. quiet. Qed.

Lemma reads_only_get_accel_data self g :
  reads_only (get_accel_data self g).
Proof.
  pose proof (reads_only_read_i2c_word self) as Hw.
  pose proof (reads_only_read_accel_range self) as Hr.
  unfold get_accel_data. quiet; try apply Hw; try apply Hr.
Qed.

Lemma reads_only_get_gyro_data self : reads_only (get_gyro_data self).
Proof.
  pose proof (reads_only_read_i2c_word self) as Hw.
  pose proof (reads_only_read_gyro_range self) as Hr.
  unfold get_gyro_data. quiet; try apply Hw; try apply Hr.
Qed.

Lemma reads_only_get_temp self : reads_only (get_temp self).
Proof.
  pose proof (reads_only_read_i2c_word self) as Hw.
  unfold get_temp. quiet; try apply Hw.
Qed.

(** X12. No reader writes to the bus: for every argument and every
    device state, each of the byte, bit, field and word readers, the two
    range readers, the sample readers, the temperature reader, the raw
    axis readers, the aggregate read and the temperature-sensor getter
    leaves all registers as they were and adds nothing but reads to the
    bus log, whether it returns or raises. *)
Theorem readers_are_read_only :
  forall (self : device) (register bitNum bitStart len : Z) (raw g : pyval),
    reads_only (read_i2c_byte self register) /\
    reads_only (read_i2c_bit self register bitNum) /\
    reads_only (read_i2c_bits self register bitStart len) /\
    reads_only (read_i2c_word self register) /\
    reads_only (read_accel_range self raw) /\
    reads_only (read_gyro_range self raw) /\
    reads_only (get_accel_data self g) /\
    reads_only (get_gyro_data self) /\
    reads_only (get_temp self) /\
    reads_only (get_accel_x self) /\
    reads_only (get_accel_y self) /\
    reads_only (get_accel_z self) /\
    reads_only (get_gyro_x self) /\
    reads_only (get_gyro_y self) /\
    reads_only (get_gyro_z self) /\
    reads_only (get_all_data self) /\
    reads_only (get_temp_sensor_enabled self).
Proof.
  intros self register bitNum bitStart len raw g.
  pose proof (reads_only_get_temp self) as Ht.
  pose proof (reads_only_get_accel_data self) as Ha.
  pose proof (reads_only_get_gyro_data self) as Hg.
  repeat match goal with |- _ /\ _ => split end;
    first
      [ apply reads_only_read_i2c_byte
      | apply reads_only_read_i2c_bit
      | apply reads_only_read_i2c_bits
      | apply reads_only_read_i2c_word
      | apply reads_only_read_accel_range
      | apply reads_only_read_gyro_range
      | apply reads_only_get_accel_data
      | apply reads_only_get_gyro_data
      | apply reads_only_get_temp
      | idtac ].
  (* the raw axis readers are word reads at a fixed register, the getter
     is a bit read followed by a comparison *)
  unfold get_all_data.
  apply reads_only_bind; [exact Ht | intro].
  apply reads_only_bind; [apply Ha | intro].
  apply reads_only_bind; [exact Hg | intro].
  apply reads_only_ret.
Qed.

(** ** Words and raw axes *)

(** X13. When the two registers hold bytes, [read_i2c_word] returns an
    integer of the signed 16-bit range from which both bytes can be
    recovered: the high byte is [(r mod 65536) / 256] and the low byte is
    [r mod 256]. *)
Theorem read_i2c_word_int16 :
  forall (self : device) (register : Z) (w : world),
    0 <= regs w (address self) register < 256 ->
    0 <= regs w (address self) (register + 1) < 256 ->
    exists r : Z,
      result (read_i2c_word self register) w = Returns r /\
      -32768 <= r <= 32767 /\
      (r mod 65536) / 256 = regs w (address self) register /\
      r mod 256 = regs w (address self) (register + 1).
Proof.
  intros self register w Hh Hl.
  exists (word_at w (address self) register).
  split; [unfold result; rewrite read_i2c_word_run; reflexivity | ].
  unfold word_at. cbv zeta.
  set (high := regs w (address self) register) in *.
  set (low := regs w (address self) (register + 1)) in *.
  rewrite Z.shiftl_mul_pow2 by lia. change (2 ^ 8) with 256.
  destruct (Z.geb_spec (high * 256 + low) 0x8000) as [Hge | Hlt].
  - split; [lia | ]. split.
    + rewrite <- (Z.mod_unique (high * 256 + low - 65536) 65536 (-1)
                    (high * 256 + low)) by lia.
      symmetry. apply (Z.div_unique _ 256 high low); lia.
    + symmetry. apply (Z.mod_unique _ 256 (high - 256) low); lia.
  - split; [lia | ]. split.
    + rewrite Z.mod_small by lia.
      symmetry. apply (Z.div_unique _ 256 high low); lia.
    + symmetry. apply (Z.mod_unique _ 256 high low); lia.
Qed.

Lemma read_i2c_word_int16_witness :
  let w := power_on (smbus.poke (smbus.poke blank 0x68 0x3B 0xFF)
                       0x68 0x3C 0xFE) in
  0 <= regs w (address sensor) 0x3B < 256 /\
  0 <= regs w (address sensor) (0x3B + 1) < 256 /\
  exists r : Z,
    result (read_i2c_word sensor 0x3B) w = Returns r /\
    -32768 <= r <= 32767 /\
    (r mod 65536) / 256 = 0xFF /\ r mod 256 = 0xFE.
Proof.
  intros w.
  assert (Hh : 0 <= regs w (address sensor) 0x3B < 256) by (cbn; lia).
  assert (Hl : 0 <= regs w (address sensor) (0x3B + 1) < 256) by (cbn; lia).
  split; [exact Hh | ]. split; [exact Hl | ].
  exact (read_i2c_word_int16 sensor 0x3B w Hh Hl).
Defined.


Set Warnings "-inexact-float".

Lemma get_temp_run self w :
  get_temp self w =
  (Returns (PrimFloat.add
              (PrimFloat.div (float_of_Z (word_at w (address self) TEMP_OUT0))
                 340%float)
              36.53%float),
   logged_read (logged_read w (address self) TEMP_OUT0)
     (address self) (TEMP_OUT0 + 1)).
Proof.
  unfold get_temp. step. step_word. step. reflexivity.
Qed.

Set Warnings "inexact-float".

(** X15. [get_all_data] never raises.  It reads the temperature word
    first, then the accelerometer sample, then the gyroscope sample (16
    reads, no write), and returns the list of what [get_accel_data] with
    its default flag, [get_gyro_data] and [get_temp] each return on the
    same registers. *)
Theorem get_all_data_composes :
  forall (self : device) (w : world),
    let a := address self in
    exists (accel gyro : pyval) (temp : float),
      result (get_accel_data self (PyBool false)) w = Returns accel /\
      result (get_gyro_data self) w = Returns gyro /\
      result (get_temp self) w = Returns temp /\
      result (get_all_data self) w = Returns [accel; gyro; PyFloat temp] /\
      bus_log (after (get_all_data self) w) =
        bus_log w ++ word_reads w a TEMP_OUT0
          ++ sample_reads w a ACCEL_XOUT0 ACCEL_YOUT0 ACCEL_ZOUT0 ACCEL_CONFIG
          ++ sample_reads w a GYRO_XOUT0 GYRO_YOUT0 GYRO_ZOUT0 GYRO_CONFIG.
Proof.
  intros self w a. do 3 eexists.
  split; [unfold result; rewrite get_accel_data_run; reflexivity | ].
  split; [unfold result; rewrite get_gyro_data_run; reflexivity | ].
  split; [unfold result; rewrite get_temp_run; reflexivity | ].
  unfold result, after, get_all_data.
  erewrite bind_returns by apply get_temp_run.
  erewrite bind_returns by apply get_accel_data_run.
  fold a. cbn [is_True is_False].
  change (regs (logged_read (logged_read w a TEMP_OUT0) a (TEMP_OUT0 + 1)))
    with (regs w).
  destruct (accel_known (regs w a ACCEL_CONFIG)).
  all: erewrite bind_returns by apply get_gyro_data_run.
  all: fold a; unfold ret, word_at, sampled, printed, logged_read.
  all: cbn [regs bus_log stdout fst snd].
  all: destruct (gyro_known (regs w a GYRO_CONFIG)); cbn [fst snd bus_log].
  all: split; [reflexivity | ].
  all: unfold word_reads, sample_reads; rewrite <- ?app_assoc; reflexivity.
Qed.

(** ** Construction and the temperature-sensor flag *)

(** X16. The temperature-sensor getter performs one read of PWR_MGMT_1
    and returns [True] exactly when bit 3 of the byte read is clear, for
    every device state. *)
Theorem get_temp_sensor_enabled_inverts :
  forall (self : device) (w : world),
    get_temp_sensor_enabled self w =
    (Returns (negb (Z.testbit (regs w (address self) PWR_MGMT_1)
                      PWR1_TEMP_DIS_BIT)),
     logged_read w (address self) PWR_MGMT_1).
Proof.
  intros self w. unfold get_temp_sensor_enabled.
  change (PWR1_TEMP_DIS_BIT) with 3.
  rewrite <- (land_pow2_eqb_0 (regs w (address self) PWR_MGMT_1) 3)
    by lia.
  reflexivity.
Qed.

(** X17. Constructing the driver writes 0x00 to PWR_MGMT_1 and does
    nothing else on the bus.  On the device as constructed the
    temperature sensor reads as enabled, [read_i2c_bits] on PWR_MGMT_1
    returns [None] for every field, and [write_i2c_bit] on PWR_MGMT_1
    leaves the register at zero for every bit position and value. *)
Theorem init_wakes_the_device :
  forall (addr : Z) (w : world),
    let self := mkDevice addr in
    let w1 := after (init addr) w in
    result (init addr) w = Returns self /\
    bus_log w1 = bus_log w ++ [BusWrite addr PWR_MGMT_1 0x00] /\
    regs w1 addr PWR_MGMT_1 = 0 /\
    result (get_temp_sensor_enabled self) w1 = Returns true /\
    (forall bitStart len : Z,
       result (read_i2c_bits self PWR_MGMT_1 bitStart len) w1
       = Returns PyNone) /\
    (forall (bitNum : Z) (value : pyval),
       regs (after (write_i2c_bit self PWR_MGMT_1 bitNum value) w1)
         addr PWR_MGMT_1 = 0).
Proof.
  intros addr w self w1.
  assert (Hrun : init addr w =
                 (Returns self, logged_write w addr PWR_MGMT_1 0x00))
    by reflexivity.
  assert (Hreg : regs w1 (address self) PWR_MGMT_1 = 0).
  { unfold w1, after. rewrite Hrun. cbn [snd].
    unfold logged_write. cbn [regs]. apply poke_same. }
  split; [unfold result; rewrite Hrun; reflexivity | ].
  split; [unfold w1, after; rewrite Hrun; reflexivity | ].
  split; [exact Hreg | ]. split; [ | split].
  - rewrite get_temp_sensor_enabled_reads_bit3, Hreg. reflexivity.
  - intros bitStart len. apply read_i2c_bits_zero. exact Hreg.
  - intros bitNum value. destruct (Z.ltb_spec bitNum 0) as [Hneg | Hpos].
    + rewrite write_i2c_bit_negative by lia. exact Hreg.
    + unfold after. rewrite write_i2c_bit_run by lia. cbn [snd].
      unfold logged_write. cbn [regs]. change addr with (address self).
      rewrite poke_same, Hreg. reflexivity.
Qed.
